(** * Expense approval workflow (Django implementation)

    A shallow embedding of [expenses/models.py], [authentication/models.py],
    [expenses/serializers.py] and [expenses/views.py], with the properties of
    the expense state machine, its authorization checks and its business
    rules proved about it.

    Conventions.
    - A [Decimal] with two decimal places (amounts, limits) is an integer
      number of cents in [Z]: [5000.00] is [500000].  The thresholds of
      [settings.EXPENSE_RULES] are floats with an exact decimal value, and
      Python compares a [Decimal] with a float exactly.
    - A [date] is a number of days since 1970-01-01; an aware UTC [datetime]
      is a number of microseconds since 1970-01-01T00:00:00Z.
    - A foreign key other than [Expense.employee] is the primary key of the
      row it points to; [None] is the null reference.
    - The in-memory model instance is threaded through every method as
      state, and an exception keeps whatever was written before it was
      raised, as Python does. *)

From Stdlib Require Import ZArith List String Ascii Bool Lia.
Import ListNotations.

Local Open Scope string_scope.
Local Open Scope Z_scope.

(** ** settings.EXPENSE_RULES *)

Module EXPENSE_RULES.
Definition MAX_AMOUNT_WITHOUT_RECEIPT : Z := 2500.
Definition MAX_EXPENSE_AGE_DAYS : Z := 90.
Definition MANAGER_APPROVAL_LIMIT : Z := 500000.
Definition VP_APPROVAL_LIMIT : Z := 5000000.
Definition CFO_APPROVAL_LIMIT : Z := 99999999.
Definition ENTERTAINMENT_REQUIRES_VP : Z := 20000.
Definition MONTHLY_SUBMISSION_LIMITS : list (string * Z) :=
  [("employee", 200000); ("manager", 500000); ("vp", 1000000);
   ("cfo", 99999999)].
End EXPENSE_RULES.

(** ** Enumerations *)

Inductive Role : Set :=
  EMPLOYEE | MANAGER | FINANCE | COMPLIANCE | VP | CFO.

Inductive ExpenseCategory : Set :=
  TRAVEL | MEALS | ACCOMMODATION | ENTERTAINMENT | SUPPLIES | CAPITAL | OTHER.

Inductive ExpenseState : Set :=
  DRAFT | SUBMITTED | APPROVED | COMPLIANCE_HOLD | REJECTED | PAID.

Definition Role_eqb (a b : Role) : bool :=
  match a, b with
  | EMPLOYEE, EMPLOYEE | MANAGER, MANAGER | FINANCE, FINANCE
  | COMPLIANCE, COMPLIANCE | VP, VP | CFO, CFO => true
  | _, _ => false
  end.

Definition ExpenseCategory_eqb (a b : ExpenseCategory) : bool :=
  match a, b with
  | TRAVEL, TRAVEL | MEALS, MEALS | ACCOMMODATION, ACCOMMODATION
  | ENTERTAINMENT, ENTERTAINMENT | SUPPLIES, SUPPLIES | CAPITAL, CAPITAL
  | OTHER, OTHER => true
  | _, _ => false
  end.

Definition ExpenseState_eqb (a b : ExpenseState) : bool :=
  match a, b with
  | DRAFT, DRAFT | SUBMITTED, SUBMITTED | APPROVED, APPROVED
  | COMPLIANCE_HOLD, COMPLIANCE_HOLD | REJECTED, REJECTED | PAID, PAID => true
  | _, _ => false
  end.

(** ** Calendar

    [now.replace(day=1, hour=0, minute=0, second=0, microsecond=0)] needs the
    day of the month of a date; [civil_from_days] is the proleptic Gregorian
    calendar of Python's [datetime]. *)

Definition us_per_day : Z := 86400000000.

Definition civil_from_days (days : Z) : Z * Z * Z :=
  let z := days + 719468 in
  let era := z / 146097 in
  let doe := z - era * 146097 in
  let yoe := (doe - doe / 1460 + doe / 36524 - doe / 146096) / 365 in
  let doy := doe - (365 * yoe + yoe / 4 - yoe / 100) in
  let mp := (5 * doy + 2) / 153 in
  let d := doy - (153 * mp + 2) / 5 + 1 in
  let m := if mp <? 10 then mp + 3 else mp - 9 in
  let y := yoe + era * 400 in
  (if m <=? 2 then y + 1 else y, m, d).

Definition day_of_month (days : Z) : Z := snd (civil_from_days days).

(** [datetime.date()] *)
Definition date_of (dt : Z) : Z := dt / us_per_day.

(** [dt.replace(day=1, hour=0, minute=0, second=0, microsecond=0)] *)
Definition replace_day1_midnight (dt : Z) : Z :=
  let d := date_of dt in (d - (day_of_month d - 1)) * us_per_day.

(** ** authentication.models.User *)

Module User.

Record t : Set := mk {
  id : Z;
  role : Role;
  department : string;
  manager : option Z;
  approval_limit : option Z;
  monthly_expense_limit : option Z;
  is_active : bool;
  is_active_approver : bool
}.

Definition can_approve_expenses (self : t) : bool :=
  match role self with MANAGER | VP | CFO => true | _ => false end
  && is_active_approver self.

Definition can_process_payments (self : t) : bool :=
  Role_eqb (role self) FINANCE && is_active_approver self.

Definition can_audit_expenses (self : t) : bool :=
  Role_eqb (role self) COMPLIANCE && is_active_approver self.

Definition can_executive_override (self : t) : bool :=
  match role self with VP | CFO => true | _ => false end
  && is_active_approver self.

Definition is_employee (self : t) : bool := Role_eqb (role self) EMPLOYEE.
Definition is_manager (self : t) : bool := Role_eqb (role self) MANAGER.
Definition is_vp (self : t) : bool := Role_eqb (role self) VP.
Definition is_cfo (self : t) : bool := Role_eqb (role self) CFO.

(** [self.approval_limit or 0]: an unset limit and a zero limit both
    give 0. *)
Definition get_approval_limit (self : t) : Z :=
  match approval_limit self with
  | Some l => if l =? 0 then 0 else l
  | None => 0
  end.

Definition get_monthly_expense_limit (self : t) : Z :=
  match monthly_expense_limit self with
  | Some l => if l =? 0 then 0 else l
  | None => 0
  end.

Definition get_direct_manager (self : t) : option Z := manager self.

Definition can_approve_amount (self : t) (amount : Z) : bool :=
  get_approval_limit self >=? amount.

(** [QuerySet.first()] on a model without a default ordering orders by
    primary key. *)
Fixpoint first (rows : list t) : option t :=
  match rows with
  | [] => None
  | u :: rest =>
      match first rest with
      | None => Some u
      | Some v => if id u <=? id v then Some u else Some v
      end
  end.

(** The value of a [Role] choice, as stored in [role]. *)
Definition role_value (r : Role) : string :=
  match r with
  | EMPLOYEE => "employee"
  | MANAGER => "manager"
  | FINANCE => "finance"
  | COMPLIANCE => "compliance"
  | VP => "vp"
  | CFO => "cfo"
  end.

Definition get_default_approval_limit (self : t) : Z :=
  match role self with
  | EMPLOYEE => 0
  | MANAGER => EXPENSE_RULES.MANAGER_APPROVAL_LIMIT
  | FINANCE => EXPENSE_RULES.MANAGER_APPROVAL_LIMIT
  | COMPLIANCE => EXPENSE_RULES.MANAGER_APPROVAL_LIMIT
  | VP => EXPENSE_RULES.VP_APPROVAL_LIMIT
  | CFO => EXPENSE_RULES.CFO_APPROVAL_LIMIT
  end.

(** [limits.get(self.role, limits['employee'])] *)
Definition get_default_monthly_limit (self : t) : Z :=
  let limits := EXPENSE_RULES.MONTHLY_SUBMISSION_LIMITS in
  let get key :=
    option_map snd (find (fun kv => String.eqb (fst kv) key) limits) in
  match get (role_value (role self)) with
  | Some limit => limit
  | None => match get "employee" with Some limit => limit | None => 0 end
  end.

(** [not value] on an optional decimal: unset and zero are both false. *)
Definition falsy (value : option Z) : bool :=
  match value with
  | Some v => v =? 0
  | None => true
  end.

(** The assignments of [save], before [super().save()] writes the row.
    [role] has a default and is never empty. *)
Definition save (self : t) : t :=
  let self1 :=
    if falsy (approval_limit self)
    then {| id := id self; role := role self; department := department self;
            manager := manager self;
            approval_limit := Some (get_default_approval_limit self);
            monthly_expense_limit := monthly_expense_limit self;
            is_active := is_active self;
            is_active_approver := is_active_approver self |}
    else self in
  if falsy (monthly_expense_limit self1)
  then {| id := id self1; role := role self1; department := department self1;
          manager := manager self1;
          approval_limit := approval_limit self1;
          monthly_expense_limit := Some (get_default_monthly_limit self1);
          is_active := is_active self1;
          is_active_approver := is_active_approver self1 |}
  else self1.

End User.

(** ** expenses.models *)

Module Receipt.
Record t : Set := mk {
  id : Z;
  expense : Z;
  file_name : string;
  file_size : Z;
  mime_type : string
}.
End Receipt.

(** The dictionary built by [Expense._generate_payment_details]; the empty
    default of the JSON field is [None]. *)
Record PaymentDetails : Set := {
  payment_id : Z;
  pd_processed_at : Z;
  payment_method : string;
  pd_vendor_id : string;
  pd_amount : Z;
  pd_currency : string
}.

(** What a method can raise: [TransitionNotAllowed] comes from the
    [django_fsm] decorator, [AttributeError] from reading an attribute of
    [None], and each [ValidationError] carries one of the messages of the
    source. *)
Inductive Message : Set :=
| Only_the_expense_owner_can_submit
| User_cannot_approve_expenses
| Manager_can_only_approve_direct_reports
| Amount_exceeds_approval_limit (amount : Z)
| User_cannot_process_payments
| User_cannot_reject_expenses
| Only_the_expense_owner_can_withdraw
| User_cannot_flag_expenses
| User_cannot_perform_executive_override
| Receipts_required_for_amounts_over_25
| Monthly_submission_limit_exceeded
| Vendor_is_currently_under_investigation
| Potential_duplicate_expense_detected
| Insufficient_departmental_budget
| Entertainment_expenses_over_200_require_VP_approval
| Duplicate_payment_detected
| Amount_must_be_positive
| Description_must_be_at_least_10_characters
| Expense_date_cannot_be_older_than_90_days.

Inductive Exception : Set :=
| TransitionNotAllowed
| AttributeError
| ValidationError (msg : Message).

Module Expense.

Record t : Set := mk {
  id : Z;
  employee : User.t;
  amount : Z;
  expense_category : ExpenseCategory;
  currency : string;
  expense_date : Z;
  vendor_id : string;
  department : string;
  description : string;
  state : ExpenseState;
  manager : option Z;
  finance_user : option Z;
  compliance_user : option Z;
  submitted_at : option Z;
  approved_at : option Z;
  approved_by : option Z;
  processed_at : option Z;
  processed_by : option Z;
  rejected_at : option Z;
  rejection_reason : string;
  flagged_at : option Z;
  flagged_by : option Z;
  flag_reason : string;
  override_reason : string;
  payment_details : option PaymentDetails;
  created_at : Z;
  updated_at : Z
}.

(** *** Attribute assignment, one function per assigned attribute *)

Definition set_department (v : string) (self : t) : t :=
  {| id := id self; employee := employee self; amount := amount self;
     expense_category := expense_category self; currency := currency self;
     expense_date := expense_date self; vendor_id := vendor_id self; department := v;
     description := description self; state := state self; manager := manager self;
     finance_user := finance_user self; compliance_user := compliance_user self;
     submitted_at := submitted_at self; approved_at := approved_at self;
     approved_by := approved_by self; processed_at := processed_at self;
     processed_by := processed_by self; rejected_at := rejected_at self;
     rejection_reason := rejection_reason self; flagged_at := flagged_at self;
     flagged_by := flagged_by self; flag_reason := flag_reason self;
     override_reason := override_reason self; payment_details := payment_details self;
     created_at := created_at self; updated_at := updated_at self |}.

Definition set_state (v : ExpenseState) (self : t) : t :=
  {| id := id self; employee := employee self; amount := amount self;
     expense_category := expense_category self; currency := currency self;
     expense_date := expense_date self; vendor_id := vendor_id self;
     department := department self; description := description self; state := v;
     manager := manager self; finance_user := finance_user self;
     compliance_user := compliance_user self; submitted_at := submitted_at self;
     approved_at := approved_at self; approved_by := approved_by self;
     processed_at := processed_at self; processed_by := processed_by self;
     rejected_at := rejected_at self; rejection_reason := rejection_reason self;
     flagged_at := flagged_at self; flagged_by := flagged_by self;
     flag_reason := flag_reason self; override_reason := override_reason self;
     payment_details := payment_details self; created_at := created_at self;
     updated_at := updated_at self |}.

Definition set_manager (v : option Z) (self : t) : t :=
  {| id := id self; employee := employee self; amount := amount self;
     expense_category := expense_category self; currency := currency self;
     expense_date := expense_date self; vendor_id := vendor_id self;
     department := department self; description := description self;
     state := state self; manager := v; finance_user := finance_user self;
     compliance_user := compliance_user self; submitted_at := submitted_at self;
     approved_at := approved_at self; approved_by := approved_by self;
     processed_at := processed_at self; processed_by := processed_by self;
     rejected_at := rejected_at self; rejection_reason := rejection_reason self;
     flagged_at := flagged_at self; flagged_by := flagged_by self;
     flag_reason := flag_reason self; override_reason := override_reason self;
     payment_details := payment_details self; created_at := created_at self;
     updated_at := updated_at self |}.

Definition set_finance_user (v : option Z) (self : t) : t :=
  {| id := id self; employee := employee self; amount := amount self;
     expense_category := expense_category self; currency := currency self;
     expense_date := expense_date self; vendor_id := vendor_id self;
     department := department self; description := description self;
     state := state self; manager := manager self; finance_user := v;
     compliance_user := compliance_user self; submitted_at := submitted_at self;
     approved_at := approved_at self; approved_by := approved_by self;
     processed_at := processed_at self; processed_by := processed_by self;
     rejected_at := rejected_at self; rejection_reason := rejection_reason self;
     flagged_at := flagged_at self; flagged_by := flagged_by self;
     flag_reason := flag_reason self; override_reason := override_reason self;
     payment_details := payment_details self; created_at := created_at self;
     updated_at := updated_at self |}.

Definition set_compliance_user (v : option Z) (self : t) : t :=
  {| id := id self; employee := employee self; amount := amount self;
     expense_category := expense_category self; currency := currency self;
     expense_date := expense_date self; vendor_id := vendor_id self;
     department := department self; description := description self;
     state := state self; manager := manager self; finance_user := finance_user self;
     compliance_user := v; submitted_at := submitted_at self;
     approved_at := approved_at self; approved_by := approved_by self;
     processed_at := processed_at self; processed_by := processed_by self;
     rejected_at := rejected_at self; rejection_reason := rejection_reason self;
     flagged_at := flagged_at self; flagged_by := flagged_by self;
     flag_reason := flag_reason self; override_reason := override_reason self;
     payment_details := payment_details self; created_at := created_at self;
     updated_at := updated_at self |}.

Definition set_submitted_at (v : option Z) (self : t) : t :=
  {| id := id self; employee := employee self; amount := amount self;
     expense_category := expense_category self; currency := currency self;
     expense_date := expense_date self; vendor_id := vendor_id self;
     department := department self; description := description self;
     state := state self; manager := manager self; finance_user := finance_user self;
     compliance_user := compliance_user self; submitted_at := v;
     approved_at := approved_at self; approved_by := approved_by self;
     processed_at := processed_at self; processed_by := processed_by self;
     rejected_at := rejected_at self; rejection_reason := rejection_reason self;
     flagged_at := flagged_at self; flagged_by := flagged_by self;
     flag_reason := flag_reason self; override_reason := override_reason self;
     payment_details := payment_details self; created_at := created_at self;
     updated_at := updated_at self |}.

Definition set_approved_at (v : option Z) (self : t) : t :=
  {| id := id self; employee := employee self; amount := amount self;
     expense_category := expense_category self; currency := currency self;
     expense_date := expense_date self; vendor_id := vendor_id self;
     department := department self; description := description self;
     state := state self; manager := manager self; finance_user := finance_user self;
     compliance_user := compliance_user self; submitted_at := submitted_at self;
     approved_at := v; approved_by := approved_by self;
     processed_at := processed_at self; processed_by := processed_by self;
     rejected_at := rejected_at self; rejection_reason := rejection_reason self;
     flagged_at := flagged_at self; flagged_by := flagged_by self;
     flag_reason := flag_reason self; override_reason := override_reason self;
     payment_details := payment_details self; created_at := created_at self;
     updated_at := updated_at self |}.

Definition set_approved_by (v : option Z) (self : t) : t :=
  {| id := id self; employee := employee self; amount := amount self;
     expense_category := expense_category self; currency := currency self;
     expense_date := expense_date self; vendor_id := vendor_id self;
     department := department self; description := description self;
     state := state self; manager := manager self; finance_user := finance_user self;
     compliance_user := compliance_user self; submitted_at := submitted_at self;
     approved_at := approved_at self; approved_by := v;
     processed_at := processed_at self; processed_by := processed_by self;
     rejected_at := rejected_at self; rejection_reason := rejection_reason self;
     flagged_at := flagged_at self; flagged_by := flagged_by self;
     flag_reason := flag_reason self; override_reason := override_reason self;
     payment_details := payment_details self; created_at := created_at self;
     updated_at := updated_at self |}.

Definition set_processed_at (v : option Z) (self : t) : t :=
  {| id := id self; employee := employee self; amount := amount self;
     expense_category := expense_category self; currency := currency self;
     expense_date := expense_date self; vendor_id := vendor_id self;
     department := department self; description := description self;
     state := state self; manager := manager self; finance_user := finance_user self;
     compliance_user := compliance_user self; submitted_at := submitted_at self;
     approved_at := approved_at self; approved_by := approved_by self;
     processed_at := v; processed_by := processed_by self;
     rejected_at := rejected_at self; rejection_reason := rejection_reason self;
     flagged_at := flagged_at self; flagged_by := flagged_by self;
     flag_reason := flag_reason self; override_reason := override_reason self;
     payment_details := payment_details self; created_at := created_at self;
     updated_at := updated_at self |}.

Definition set_processed_by (v : option Z) (self : t) : t :=
  {| id := id self; employee := employee self; amount := amount self;
     expense_category := expense_category self; currency := currency self;
     expense_date := expense_date self; vendor_id := vendor_id self;
     department := department self; description := description self;
     state := state self; manager := manager self; finance_user := finance_user self;
     compliance_user := compliance_user self; submitted_at := submitted_at self;
     approved_at := approved_at self; approved_by := approved_by self;
     processed_at := processed_at self; processed_by := v;
     rejected_at := rejected_at self; rejection_reason := rejection_reason self;
     flagged_at := flagged_at self; flagged_by := flagged_by self;
     flag_reason := flag_reason self; override_reason := override_reason self;
     payment_details := payment_details self; created_at := created_at self;
     updated_at := updated_at self |}.

Definition set_rejected_at (v : option Z) (self : t) : t :=
  {| id := id self; employee := employee self; amount := amount self;
     expense_category := expense_category self; currency := currency self;
     expense_date := expense_date self; vendor_id := vendor_id self;
     department := department self; description := description self;
     state := state self; manager := manager self; finance_user := finance_user self;
     compliance_user := compliance_user self; submitted_at := submitted_at self;
     approved_at := approved_at self; approved_by := approved_by self;
     processed_at := processed_at self; processed_by := processed_by self;
     rejected_at := v; rejection_reason := rejection_reason self;
     flagged_at := flagged_at self; flagged_by := flagged_by self;
     flag_reason := flag_reason self; override_reason := override_reason self;
     payment_details := payment_details self; created_at := created_at self;
     updated_at := updated_at self |}.

Definition set_rejection_reason (v : string) (self : t) : t :=
  {| id := id self; employee := employee self; amount := amount self;
     expense_category := expense_category self; currency := currency self;
     expense_date := expense_date self; vendor_id := vendor_id self;
     department := department self; description := description self;
     state := state self; manager := manager self; finance_user := finance_user self;
     compliance_user := compliance_user self; submitted_at := submitted_at self;
     approved_at := approved_at self; approved_by := approved_by self;
     processed_at := processed_at self; processed_by := processed_by self;
     rejected_at := rejected_at self; rejection_reason := v;
     flagged_at := flagged_at self; flagged_by := flagged_by self;
     flag_reason := flag_reason self; override_reason := override_reason self;
     payment_details := payment_details self; created_at := created_at self;
     updated_at := updated_at self |}.

Definition set_flagged_at (v : option Z) (self : t) : t :=
  {| id := id self; employee := employee self; amount := amount self;
     expense_category := expense_category self; currency := currency self;
     expense_date := expense_date self; vendor_id := vendor_id self;
     department := department self; description := description self;
     state := state self; manager := manager self; finance_user := finance_user self;
     compliance_user := compliance_user self; submitted_at := submitted_at self;
     approved_at := approved_at self; approved_by := approved_by self;
     processed_at := processed_at self; processed_by := processed_by self;
     rejected_at := rejected_at self; rejection_reason := rejection_reason self;
     flagged_at := v; flagged_by := flagged_by self; flag_reason := flag_reason self;
     override_reason := override_reason self; payment_details := payment_details self;
     created_at := created_at self; updated_at := updated_at self |}.

Definition set_flagged_by (v : option Z) (self : t) : t :=
  {| id := id self; employee := employee self; amount := amount self;
     expense_category := expense_category self; currency := currency self;
     expense_date := expense_date self; vendor_id := vendor_id self;
     department := department self; description := description self;
     state := state self; manager := manager self; finance_user := finance_user self;
     compliance_user := compliance_user self; submitted_at := submitted_at self;
     approved_at := approved_at self; approved_by := approved_by self;
     processed_at := processed_at self; processed_by := processed_by self;
     rejected_at := rejected_at self; rejection_reason := rejection_reason self;
     flagged_at := flagged_at self; flagged_by := v; flag_reason := flag_reason self;
     override_reason := override_reason self; payment_details := payment_details self;
     created_at := created_at self; updated_at := updated_at self |}.

Definition set_flag_reason (v : string) (self : t) : t :=
  {| id := id self; employee := employee self; amount := amount self;
     expense_category := expense_category self; currency := currency self;
     expense_date := expense_date self; vendor_id := vendor_id self;
     department := department self; description := description self;
     state := state self; manager := manager self; finance_user := finance_user self;
     compliance_user := compliance_user self; submitted_at := submitted_at self;
     approved_at := approved_at self; approved_by := approved_by self;
     processed_at := processed_at self; processed_by := processed_by self;
     rejected_at := rejected_at self; rejection_reason := rejection_reason self;
     flagged_at := flagged_at self; flagged_by := flagged_by self; flag_reason := v;
     override_reason := override_reason self; payment_details := payment_details self;
     created_at := created_at self; updated_at := updated_at self |}.

Definition set_override_reason (v : string) (self : t) : t :=
  {| id := id self; employee := employee self; amount := amount self;
     expense_category := expense_category self; currency := currency self;
     expense_date := expense_date self; vendor_id := vendor_id self;
     department := department self; description := description self;
     state := state self; manager := manager self; finance_user := finance_user self;
     compliance_user := compliance_user self; submitted_at := submitted_at self;
     approved_at := approved_at self; approved_by := approved_by self;
     processed_at := processed_at self; processed_by := processed_by self;
     rejected_at := rejected_at self; rejection_reason := rejection_reason self;
     flagged_at := flagged_at self; flagged_by := flagged_by self;
     flag_reason := flag_reason self; override_reason := v;
     payment_details := payment_details self; created_at := created_at self;
     updated_at := updated_at self |}.

Definition set_payment_details (v : option PaymentDetails) (self : t) : t :=
  {| id := id self; employee := employee self; amount := amount self;
     expense_category := expense_category self; currency := currency self;
     expense_date := expense_date self; vendor_id := vendor_id self;
     department := department self; description := description self;
     state := state self; manager := manager self; finance_user := finance_user self;
     compliance_user := compliance_user self; submitted_at := submitted_at self;
     approved_at := approved_at self; approved_by := approved_by self;
     processed_at := processed_at self; processed_by := processed_by self;
     rejected_at := rejected_at self; rejection_reason := rejection_reason self;
     flagged_at := flagged_at self; flagged_by := flagged_by self;
     flag_reason := flag_reason self; override_reason := override_reason self;
     payment_details := v; created_at := created_at self;
     updated_at := updated_at self |}.

Definition set_created_at (v : Z) (self : t) : t :=
  {| id := id self; employee := employee self; amount := amount self;
     expense_category := expense_category self; currency := currency self;
     expense_date := expense_date self; vendor_id := vendor_id self;
     department := department self; description := description self;
     state := state self; manager := manager self; finance_user := finance_user self;
     compliance_user := compliance_user self; submitted_at := submitted_at self;
     approved_at := approved_at self; approved_by := approved_by self;
     processed_at := processed_at self; processed_by := processed_by self;
     rejected_at := rejected_at self; rejection_reason := rejection_reason self;
     flagged_at := flagged_at self; flagged_by := flagged_by self;
     flag_reason := flag_reason self; override_reason := override_reason self;
     payment_details := payment_details self; created_at := v;
     updated_at := updated_at self |}.

Definition set_updated_at (v : Z) (self : t) : t :=
  {| id := id self; employee := employee self; amount := amount self;
     expense_category := expense_category self; currency := currency self;
     expense_date := expense_date self; vendor_id := vendor_id self;
     department := department self; description := description self;
     state := state self; manager := manager self; finance_user := finance_user self;
     compliance_user := compliance_user self; submitted_at := submitted_at self;
     approved_at := approved_at self; approved_by := approved_by self;
     processed_at := processed_at self; processed_by := processed_by self;
     rejected_at := rejected_at self; rejection_reason := rejection_reason self;
     flagged_at := flagged_at self; flagged_by := flagged_by self;
     flag_reason := flag_reason self; override_reason := override_reason self;
     payment_details := payment_details self; created_at := created_at self;
     updated_at := v |}.


(** *** The database and the clock a request runs against

  One call sees one database snapshot and one clock reading: the two
  [timezone.now()] of [process_payment] give the same instant. *)

Record World : Set := {
  now : Z;                       (* timezone.now() *)
  uuid4 : Z;                     (* the value uuid.uuid4() returns *)
  users : list User.t;           (* User.objects *)
  expenses : list t;             (* Expense.objects *)
  receipts : list Receipt.t      (* Receipt.objects *)
}.

(** *** Methods: the instance as state, exceptions as results *)

Definition M (A : Type) : Type := t -> t * (Exception + A).

Definition ret {A : Type} (a : A) : M A := fun self => (self, inr a).

Definition bind {A B : Type} (c : M A) (k : A -> M B) : M B :=
  fun self =>
    match c self with
    | (self', inl exc) => (self', inl exc)
    | (self', inr a) => k a self'
    end.

Definition raise {A : Type} (exc : Exception) : M A :=
  fun self => (self, inl exc).

Definition get : M t := fun self => (self, inr self).

Definition assign (f : t -> t) : M unit := fun self => (f self, inr tt).

Definition when_ (b : bool) (c : M unit) : M unit :=
  if b then c else ret tt.

Notation "x <- c ;; k" := (bind c (fun x => k))
  (at level 61, c at next level, right associativity).
Notation "c ;; k" := (bind c (fun _ => k))
  (at level 61, right associativity).

(** The [@transition(field=state, source=..., target=...)] decorator of
    [django_fsm]: a call from a state that is not a source raises
    [TransitionNotAllowed] without running the method; otherwise the
    method runs, an exception of the method propagates with [state]
    untouched, and a normal return sets [state] to the target.  [None] is
    the wildcard source ['*']. *)
Definition transition (source : option (list ExpenseState))
    (target : ExpenseState) (method : M unit) : M unit :=
  fun self =>
    let has_transition :=
      match source with
      | None => true
      | Some l => existsb (ExpenseState_eqb (state self)) l
      end in
    if has_transition then
      match method self with
      | (self', inl exc) => (self', inl exc)
      | (self', inr _) => (set_state target self', inr tt)
      end
    else (self, inl TransitionNotAllowed).

(** *** Helper methods *)

(** [needle in hay] on strings. *)
Fixpoint contains (needle hay : string) : bool :=
  String.prefix needle hay
  || match hay with
     | EmptyString => false
     | String _ rest => contains needle rest
     end.

Definition _get_direct_manager (self : t) : option Z :=
  User.get_direct_manager (employee self).

Definition _get_finance_user (w : World) : option User.t :=
  User.first
    (filter (fun u => Role_eqb (User.role u) FINANCE
                      && String.eqb (User.department u) "Finance"
                      && User.is_active u)
            (users w)).

Definition _get_compliance_user (w : World) : option User.t :=
  User.first
    (filter (fun u => Role_eqb (User.role u) COMPLIANCE && User.is_active u)
            (users w)).

Definition _is_vendor_blacklisted (self : t) : bool :=
  let blacklisted_vendors :=
    ["VENDOR_BLACKLISTED"; "SUSPICIOUS_CORP"; "FRAUD_COMPANY"] in
  existsb (String.eqb (vendor_id self)) blacklisted_vendors
  || (negb (String.eqb (vendor_id self) "")
      && contains "_BLOCKED" (vendor_id self)).

Definition _is_duplicate_expense (w : World) (self : t) : bool :=
  existsb
    (fun row => negb (id row =? id self))
    (filter (fun row => (User.id (employee row) =? User.id (employee self))
                        && String.eqb (vendor_id row) (vendor_id self)
                        && (amount row =? amount self)
                        && (expense_date row =? expense_date self))
            (expenses w)).

Definition _get_remaining_department_budget (self : t) : Z :=
  let department_budgets :=
    [("Engineering", 7500000); ("Marketing", 4500000); ("Sales", 6000000);
     ("Finance", 2500000); ("HR", 1500000)] in
  match find (fun kv => String.eqb (fst kv) (department self))
             department_budgets with
  | Some kv => snd kv
  | None => 3000000
  end.

Definition _has_payment_duplicate (self : t) : bool := false.

Definition _generate_payment_details (w : World) (self : t) : PaymentDetails :=
  {| payment_id := uuid4 w;
     pd_processed_at := now w;
     payment_method := "ACH_TRANSFER";
     pd_vendor_id := vendor_id self;
     pd_amount := amount self;
     pd_currency := currency self |}.

(** [self.receipts.exists()] *)
Definition receipts_exists (w : World) (self : t) : bool :=
  existsb (fun r => Receipt.expense r =? id self) (receipts w).

(** [User.get_monthly_submitted_amount]: it reads the expense table, so it
    is defined here.  Every row of the user created since the start of the
    current month counts, whatever its state. *)
Definition get_monthly_submitted_amount (w : World) (user : User.t) : Z :=
  let month_start := replace_day1_midnight (now w) in
  fold_right Z.add 0
    (map amount
       (filter (fun row => (User.id (employee row) =? User.id user)
                           && (created_at row >=? month_start))
               (expenses w))).

(** [User.can_submit_amount] *)
Definition can_submit_amount (w : World) (user : User.t) (amount : Z) : bool :=
  let monthly_submitted := get_monthly_submitted_amount w user in
  let monthly_limit := User.get_monthly_expense_limit user in
  monthly_submitted + amount <=? monthly_limit.

(** *** Business rule validation *)

Definition _validate_submission_rules (w : World) (user : User.t) : M unit :=
  self <- get ;;
  when_ (amount self >? EXPENSE_RULES.MAX_AMOUNT_WITHOUT_RECEIPT)
    (when_ (negb (receipts_exists w self))
       (raise (ValidationError Receipts_required_for_amounts_over_25))) ;;
  let monthly_submitted := get_monthly_submitted_amount w user in
  when_ (monthly_submitted + amount self >? User.get_monthly_expense_limit user)
    (raise (ValidationError Monthly_submission_limit_exceeded)) ;;
  when_ (_is_vendor_blacklisted self)
    (raise (ValidationError Vendor_is_currently_under_investigation)) ;;
  when_ (_is_duplicate_expense w self)
    (raise (ValidationError Potential_duplicate_expense_detected)).

Definition _validate_approval_rules (manager : User.t) : M unit :=
  self <- get ;;
  let remaining_budget := _get_remaining_department_budget self in
  when_ (amount self >? remaining_budget)
    (raise (ValidationError Insufficient_departmental_budget)) ;;
  when_ (ExpenseCategory_eqb (expense_category self) ENTERTAINMENT
         && (amount self >? EXPENSE_RULES.ENTERTAINMENT_REQUIRES_VP)
         && negb (User.is_vp manager) && negb (User.is_cfo manager))
    (raise (ValidationError Entertainment_expenses_over_200_require_VP_approval)).

Definition _validate_payment_processing_rules (user : User.t) : M unit :=
  self <- get ;;
  when_ (_has_payment_duplicate self)
    (raise (ValidationError Duplicate_payment_detected)).

(** *** State transition methods

    [_update_submission_permissions] only writes django-guardian
    object permissions, which no method below reads; it is left out. *)

Definition submit (w : World) (user : User.t) : M unit :=
  transition (Some [DRAFT]) SUBMITTED
    (self <- get ;;
     when_ (negb (User.id user =? User.id (employee self)))
       (raise (ValidationError Only_the_expense_owner_can_submit)) ;;
     _validate_submission_rules w user ;;
     self <- get ;;
     assign (set_manager (_get_direct_manager self)) ;;
     assign (set_finance_user (option_map User.id (_get_finance_user w))) ;;
     assign (set_compliance_user (option_map User.id (_get_compliance_user w))) ;;
     assign (set_submitted_at (Some (now w)))).

Definition approve (w : World) (user : User.t) : M unit :=
  transition (Some [SUBMITTED]) APPROVED
    (when_ (negb (User.can_approve_expenses user))
       (raise (ValidationError User_cannot_approve_expenses)) ;;
     self <- get ;;
     when_ (Role_eqb (User.role user) MANAGER)
       (match manager self with
        | None => raise AttributeError
        | Some manager_id =>
            when_ (negb (manager_id =? User.id user))
              (raise (ValidationError Manager_can_only_approve_direct_reports))
        end) ;;
     when_ (negb (User.can_approve_amount user (amount self)))
       (raise (ValidationError (Amount_exceeds_approval_limit (amount self)))) ;;
     _validate_approval_rules user ;;
     assign (set_approved_at (Some (now w))) ;;
     assign (set_approved_by (Some (User.id user)))).

Definition process_payment (w : World) (user : User.t) : M unit :=
  transition (Some [APPROVED]) PAID
    (when_ (negb (User.can_process_payments user))
       (raise (ValidationError User_cannot_process_payments)) ;;
     _validate_payment_processing_rules user ;;
     assign (set_processed_at (Some (now w))) ;;
     assign (set_processed_by (Some (User.id user))) ;;
     self <- get ;;
     assign (set_payment_details (Some (_generate_payment_details w self)))).

Definition reject (w : World) (user : User.t) (reason : string) : M unit :=
  transition (Some [SUBMITTED; COMPLIANCE_HOLD]) REJECTED
    (when_ (negb (User.can_approve_expenses user))
       (raise (ValidationError User_cannot_reject_expenses)) ;;
     assign (set_rejected_at (Some (now w))) ;;
     assign (set_rejection_reason reason)).

Definition withdraw (user : User.t) : M unit :=
  transition (Some [SUBMITTED]) DRAFT
    (self <- get ;;
     when_ (negb (User.id user =? User.id (employee self)))
       (raise (ValidationError Only_the_expense_owner_can_withdraw)) ;;
     assign (set_submitted_at None) ;;
     assign (set_manager None) ;;
     assign (set_finance_user None) ;;
     assign (set_compliance_user None)).

Definition flag_suspicious (w : World) (user : User.t) (reason : string) : M unit :=
  transition None COMPLIANCE_HOLD
    (when_ (negb (User.can_audit_expenses user))
       (raise (ValidationError User_cannot_flag_expenses)) ;;
     assign (set_flagged_at (Some (now w))) ;;
     assign (set_flagged_by (Some (User.id user))) ;;
     assign (set_flag_reason reason)).

Definition executive_override (w : World) (user : User.t) (reason : string) : M unit :=
  transition None APPROVED
    (when_ (negb (User.can_executive_override user))
       (raise (ValidationError User_cannot_perform_executive_override)) ;;
     assign (set_approved_at (Some (now w))) ;;
     assign (set_approved_by (Some (User.id user))) ;;
     assign (set_override_reason reason)).

(** *** Validation and saving *)

(** [expense_date] is a non-null [DateField], so the test
    [if self.expense_date] always succeeds. *)
Definition clean (w : World) : M unit :=
  self <- get ;;
  when_ (amount self <=? 0)
    (raise (ValidationError Amount_must_be_positive)) ;;
  when_ (String.eqb (description self) ""
         || (String.length (description self) <? 10)%nat)
    (raise (ValidationError Description_must_be_at_least_10_characters)) ;;
  let max_age := date_of (now w) - EXPENSE_RULES.MAX_EXPENSE_AGE_DAYS in
  when_ (expense_date self <? max_age)
    (raise (ValidationError Expense_date_cannot_be_older_than_90_days)).

(** [_set_initial_permissions] only writes django-guardian object
  permissions and is left out, as [_update_submission_permissions] is.

  [super().save()]: the row with this primary key is updated, or the
    instance is inserted when there is none; [updated_at] is [auto_now]
    and [created_at] is [auto_now_add]. *)
Definition write_row (w : World) (self : t) : World :=
  let rows :=
    if existsb (fun row => id row =? id self) (expenses w)
    then map (fun row => if id row =? id self then self else row) (expenses w)
    else self :: expenses w in
  {| now := now w; uuid4 := uuid4 w; users := users w;
     expenses := rows; receipts := receipts w |}.

Definition save (w : World) : M World :=
  self <- get ;;
  when_ (String.eqb (department self) "")
    (assign (set_department (User.department (employee self)))) ;;
  clean w ;;
  assign (set_updated_at (now w)) ;;
  self <- get ;;
  when_ (negb (existsb (fun row => id row =? id self) (expenses w)))
    (assign (set_created_at (now w))) ;;
  self <- get ;;
  ret (write_row w self).

(** *** Convenience methods for state checking *)

Definition is_draft (self : t) : bool := ExpenseState_eqb (state self) DRAFT.
Definition is_submitted (self : t) : bool := ExpenseState_eqb (state self) SUBMITTED.
Definition is_approved (self : t) : bool := ExpenseState_eqb (state self) APPROVED.
Definition is_paid (self : t) : bool := ExpenseState_eqb (state self) PAID.
Definition is_rejected (self : t) : bool := ExpenseState_eqb (state self) REJECTED.
Definition is_on_compliance_hold (self : t) : bool :=
  ExpenseState_eqb (state self) COMPLIANCE_HOLD.

Definition requires_receipts (self : t) : bool :=
  amount self >? EXPENSE_RULES.MAX_AMOUNT_WITHOUT_RECEIPT.

End Expense.

(** ** expenses.serializers.ExpenseActionSerializer

    The only field is [reason = CharField(required=False, allow_blank=True,
    max_length=500)].  The request body either has no [reason] key ([None])
    or carries a string.  As rest_framework runs a serializer: an absent
    optional field is skipped, together with its [validate_<field>] method;
    a blank or whitespace-only string becomes [""]; any other string is
    stripped and checked by the field's validators; the value that comes out
    is then handed to [validate_reason]. *)

Module ExpenseActionSerializer.

Inductive Error : Set :=
| Ensure_this_field_has_no_more_than_500_characters
| Null_characters_are_not_allowed
| Reason_is_required_for_action (action : string).

(** [str.isspace] on the characters below 128. *)
Definition isspace (c : ascii) : bool :=
  let n := nat_of_ascii c in
  ((9 <=? n) && (n <=? 13) || (28 <=? n) && (n <=? 32))%nat.

Fixpoint lstrip (s : string) : string :=
  match s with
  | EmptyString => EmptyString
  | String c rest => if isspace c then lstrip rest else s
  end.

Fixpoint rstrip (s : string) : string :=
  match s with
  | EmptyString => EmptyString
  | String c rest =>
      match rstrip rest with
      | EmptyString => if isspace c then EmptyString else String c EmptyString
      | rest' => String c rest'
      end
  end.

Definition strip (s : string) : string := rstrip (lstrip s).

Definition has_null_character (s : string) : bool :=
  existsb (fun c => (nat_of_ascii c =? 0)%nat) (list_ascii_of_string s).

(** [CharField.run_validation] *)
Definition run_validation (data : string) : list Error + string :=
  if String.eqb data "" || String.eqb (strip data) "" then inr ""
  else
    let value := strip data in
    let errors :=
      ((if (500 <? String.length value)%nat
        then [Ensure_this_field_has_no_more_than_500_characters] else [])
       ++ (if has_null_character value
           then [Null_characters_are_not_allowed] else []))%list in
    match errors with
    | [] => inr value
    | _ => inl errors
    end.

Definition validate_reason (action : string) (value : string)
  : list Error + string :=
  if existsb (String.eqb action)
       ["reject"; "flag_suspicious"; "executive_override"]
     && String.eqb value ""
  then inl [Reason_is_required_for_action action]
  else inr value.

(** [is_valid()] with [validated_data]: [inr None] is a valid body that
    has no [reason] key. *)
Definition is_valid (action : string) (data : option string)
  : list Error + option string :=
  match data with
  | None => inr None
  | Some primitive_value =>
      match run_validation primitive_value with
      | inl errors => inl errors
      | inr validated_value =>
          match validate_reason action validated_value with
          | inl errors => inl errors
          | inr value => inr (Some value)
          end
      end
  end.

(** [serializer.validated_data.get('reason', '')] *)
Definition get_reason (validated_data : option string) : string :=
  match validated_data with
  | Some reason => reason
  | None => ""
  end.

End ExpenseActionSerializer.

(** ** expenses.views.ExpenseViewSet *)

Module ExpenseViewSet.

Import Expense.

(** What a request ends in: a response of the view, a 404 of
    [get_object], or an exception that no [except] clause of the view
    catches ([except DjangoValidationError] lets [TransitionNotAllowed]
    and [AttributeError] through). *)
Inductive Response : Set :=
| HTTP_200_OK (data : Expense.t)
| HTTP_400_BAD_REQUEST (error : Message)
| HTTP_400_BAD_REQUEST_serializer (errors : list ExpenseActionSerializer.Error)
| HTTP_403_FORBIDDEN
| HTTP_404_NOT_FOUND
| Uncaught (exc : Exception).

Definition get_queryset (w : World) (user : User.t) : list Expense.t :=
  let is_employee row := User.id (employee row) =? User.id user in
  match User.role user with
  | COMPLIANCE => expenses w
  | VP | CFO => expenses w
  | FINANCE =>
      filter (fun row => is_employee row
                         || existsb (ExpenseState_eqb (state row)) [APPROVED; PAID])
             (expenses w)
  | MANAGER =>
      filter (fun row => is_employee row
                         || match User.manager (employee row) with
                            | Some m => m =? User.id user
                            | None => false
                            end
                         || match manager row with
                            | Some m => m =? User.id user
                            | None => false
                            end)
             (expenses w)
  | EMPLOYEE => filter is_employee (expenses w)
  end.

Definition get_object (w : World) (user : User.t) (pk : Z) : option Expense.t :=
  find (fun row => id row =? pk) (get_queryset w user).

(** The body shared by the actions:
    [try: expense.<method>(...); expense.save(); return 200
     except DjangoValidationError as e: return 400]. *)
Definition try_save (w : World) (expense : Expense.t) (method : M unit)
  : Response * World :=
  match (method ;; save w) expense with
  | (expense', inr w') => (HTTP_200_OK expense', w')
  | (_, inl (ValidationError msg)) => (HTTP_400_BAD_REQUEST msg, w)
  | (_, inl exc) => (Uncaught exc, w)
  end.

Definition submit (w : World) (user : User.t) (pk : Z) : Response * World :=
  match get_object w user pk with
  | None => (HTTP_404_NOT_FOUND, w)
  | Some expense => try_save w expense (Expense.submit w user)
  end.

Definition approve (w : World) (user : User.t) (pk : Z) : Response * World :=
  match get_object w user pk with
  | None => (HTTP_404_NOT_FOUND, w)
  | Some expense => try_save w expense (Expense.approve w user)
  end.

Definition reject (w : World) (user : User.t) (pk : Z) (data : option string)
  : Response * World :=
  match get_object w user pk with
  | None => (HTTP_404_NOT_FOUND, w)
  | Some expense =>
      match ExpenseActionSerializer.is_valid "reject" data with
      | inr validated_data =>
          try_save w expense
            (Expense.reject w user
               (ExpenseActionSerializer.get_reason validated_data))
      | inl errors => (HTTP_400_BAD_REQUEST_serializer errors, w)
      end
  end.

Definition withdraw (w : World) (user : User.t) (pk : Z) : Response * World :=
  match get_object w user pk with
  | None => (HTTP_404_NOT_FOUND, w)
  | Some expense => try_save w expense (Expense.withdraw user)
  end.

Definition process_payment (w : World) (user : User.t) (pk : Z)
  : Response * World :=
  match get_object w user pk with
  | None => (HTTP_404_NOT_FOUND, w)
  | Some expense => try_save w expense (Expense.process_payment w user)
  end.

Definition flag_suspicious (w : World) (user : User.t) (pk : Z)
    (data : option string) : Response * World :=
  match get_object w user pk with
  | None => (HTTP_404_NOT_FOUND, w)
  | Some expense =>
      match ExpenseActionSerializer.is_valid "flag_suspicious" data with
      | inr validated_data =>
          try_save w expense
            (Expense.flag_suspicious w user
               (ExpenseActionSerializer.get_reason validated_data))
      | inl errors => (HTTP_400_BAD_REQUEST_serializer errors, w)
      end
  end.

Definition executive_override (w : World) (user : User.t) (pk : Z)
    (data : option string) : Response * World :=
  match get_object w user pk with
  | None => (HTTP_404_NOT_FOUND, w)
  | Some expense =>
      if negb (User.can_executive_override user) then (HTTP_403_FORBIDDEN, w)
      else
        match ExpenseActionSerializer.is_valid "executive_override" data with
        | inr validated_data =>
            try_save w expense
              (Expense.executive_override w user
                 (ExpenseActionSerializer.get_reason validated_data))
        | inl errors => (HTTP_400_BAD_REQUEST_serializer errors, w)
        end
  end.

(** The queryset of [pending_approval], before pagination; the default
    ordering of the model is not modelled. *)
Definition pending_approval (w : World) (user : User.t) : list Expense.t :=
  match User.role user with
  | MANAGER =>
      filter (fun row => match manager row with
                         | Some m => m =? User.id user
                         | None => false
                         end
                         && ExpenseState_eqb (state row) SUBMITTED)
             (expenses w)
  | VP | CFO =>
      filter (fun row => (amount row >? 1000000)
                         || (ExpenseCategory_eqb (expense_category row) ENTERTAINMENT
                             && (amount row >? 20000)))
             (filter (fun row => ExpenseState_eqb (state row) SUBMITTED)
                     (expenses w))
  | FINANCE =>
      filter (fun row => ExpenseState_eqb (state row) APPROVED) (expenses w)
  | COMPLIANCE =>
      filter (fun row => ExpenseState_eqb (state row) COMPLIANCE_HOLD) (expenses w)
  | EMPLOYEE => []
  end.

End ExpenseViewSet.

(** ** expenses.serializers.ExpenseCreateSerializer *)

Module ExpenseCreateSerializer.

Inductive Error : Set :=
| Expense_date_cannot_be_older_than_90_days
| Expense_date_cannot_be_in_the_future.

Definition validate_expense_date (w : Expense.World) (value : Z) : Error + Z :=
  let today := date_of (Expense.now w) in
  let max_age := today - EXPENSE_RULES.MAX_EXPENSE_AGE_DAYS in
  if value <? max_age then inl Expense_date_cannot_be_older_than_90_days
  else if value >? today then inl Expense_date_cannot_be_in_the_future
  else inr value.

Inductive FieldError : Set :=
| Amount_must_be_positive
| Description_must_be_at_least_10_characters.

Definition validate_amount (value : Z) : FieldError + Z :=
  if value <=? 0 then inl Amount_must_be_positive else inr value.

Definition validate_description (value : string) : FieldError + string :=
  if String.eqb value ""
     || (String.length (ExpenseActionSerializer.strip value) <? 10)%nat
  then inl Description_must_be_at_least_10_characters
  else inr (ExpenseActionSerializer.strip value).

End ExpenseCreateSerializer.

(** ** expenses.serializers.ExpenseDetailSerializer

    The [can_*] fields.  The request is [None] when the serializer has no
    request in its context or the user of the request is not authenticated;
    each method is given as its truth value. *)

Module ExpenseDetailSerializer.

Import Expense.

Definition get_can_submit (request : option User.t) (obj : Expense.t) : bool :=
  match request with
  | None => false
  | Some user =>
      is_draft obj && (User.id (employee obj) =? User.id user)
  end.

Definition get_can_approve (request : option User.t) (obj : Expense.t) : bool :=
  match request with
  | None => false
  | Some user =>
      is_submitted obj
      && User.can_approve_expenses user
      && (User.is_manager user
          && match manager obj with
             | Some m => m =? User.id user
             | None => false
             end
          || User.is_vp user || User.is_cfo user)
      && User.can_approve_amount user (amount obj)
  end.

Definition get_can_reject (request : option User.t) (obj : Expense.t) : bool :=
  match request with
  | None => false
  | Some user =>
      (is_submitted obj || is_on_compliance_hold obj)
      && User.can_approve_expenses user
  end.

Definition get_can_withdraw (request : option User.t) (obj : Expense.t) : bool :=
  match request with
  | None => false
  | Some user =>
      is_submitted obj && (User.id (employee obj) =? User.id user)
  end.

Definition get_can_process_payment (request : option User.t) (obj : Expense.t)
  : bool :=
  match request with
  | None => false
  | Some user => is_approved obj && User.can_process_payments user
  end.

Definition get_can_flag (request : option User.t) (obj : Expense.t) : bool :=
  match request with
  | None => false
  | Some user => User.can_audit_expenses user
  end.

Definition get_can_override (request : option User.t) (obj : Expense.t) : bool :=
  match request with
  | None => false
  | Some user => User.can_executive_override user
  end.

End ExpenseDetailSerializer.

(** ** expenses.permissions

    Model instances compare equal when their primary keys do, and [None]
    equals no instance. *)

Definition is_user (reference : option Z) (user : User.t) : bool :=
  match reference with
  | Some pk => pk =? User.id user
  | None => false
  end.

Module ExpenseObjectPermission.
Import Expense.

Definition has_object_permission (user : User.t) (obj : Expense.t) : bool :=
  match User.role user with
  | COMPLIANCE => true
  | VP | CFO => true
  | FINANCE =>
      (User.id (employee obj) =? User.id user)
      || existsb (ExpenseState_eqb (state obj)) [APPROVED; PAID]
  | MANAGER =>
      (User.id (employee obj) =? User.id user)
      || is_user (User.manager (employee obj)) user
      || is_user (manager obj) user
  | EMPLOYEE => User.id (employee obj) =? User.id user
  end.

End ExpenseObjectPermission.

Module CanSubmitExpense.
Import Expense.

Definition has_object_permission (user : User.t) (obj : Expense.t) : bool :=
  (User.id (employee obj) =? User.id user)
  && ExpenseState_eqb (state obj) DRAFT.

End CanSubmitExpense.

Module CanApproveExpense.
Import Expense.

Definition has_object_permission (user : User.t) (obj : Expense.t) : bool :=
  if negb (User.can_approve_expenses user) then false
  else if negb (ExpenseState_eqb (state obj) SUBMITTED) then false
  else if Role_eqb (User.role user) MANAGER then is_user (manager obj) user
  else if existsb (Role_eqb (User.role user)) [VP; CFO] then
    (amount obj >? 1000000)
    || (ExpenseCategory_eqb (expense_category obj) ENTERTAINMENT
        && (amount obj >? 20000))
  else false.

End CanApproveExpense.

Module CanProcessPayment.
Import Expense.

Definition has_object_permission (user : User.t) (obj : Expense.t) : bool :=
  User.can_process_payments user && ExpenseState_eqb (state obj) APPROVED.

End CanProcessPayment.

Module CanAuditExpense.

Definition has_object_permission (user : User.t) (obj : Expense.t) : bool :=
  User.can_audit_expenses user.

End CanAuditExpense.

Module CanWithdrawExpense.
Import Expense.

Definition has_object_permission (user : User.t) (obj : Expense.t) : bool :=
  (User.id (employee obj) =? User.id user)
  && ExpenseState_eqb (state obj) SUBMITTED.

End CanWithdrawExpense.

Module CanExecutiveOverride.

Definition has_object_permission (user : User.t) (obj : Expense.t) : bool :=
  User.can_executive_override user.

End CanExecutiveOverride.

Module ExpenseStatePermission.
Import Expense.

(** An entry of [ALLOWED_TRANSITIONS]; [from_states = None] is [['*']]. *)
Record Entry : Set := {
  from_states : option (list ExpenseState);
  required_roles : list Role;
  owner_only : bool
}.

Definition ALLOWED_TRANSITIONS : list (string * Entry) :=
  [("submit",
    {| from_states := Some [DRAFT]; required_roles := [EMPLOYEE];
       owner_only := true |});
   ("approve",
    {| from_states := Some [SUBMITTED]; required_roles := [MANAGER; VP; CFO];
       owner_only := false |});
   ("reject",
    {| from_states := Some [SUBMITTED; COMPLIANCE_HOLD];
       required_roles := [MANAGER; VP; CFO]; owner_only := false |});
   ("withdraw",
    {| from_states := Some [SUBMITTED]; required_roles := [EMPLOYEE];
       owner_only := true |});
   ("process_payment",
    {| from_states := Some [APPROVED]; required_roles := [FINANCE];
       owner_only := false |});
   ("flag_suspicious",
    {| from_states := None; required_roles := [COMPLIANCE];
       owner_only := false |});
   ("executive_override",
    {| from_states := None; required_roles := [VP; CFO];
       owner_only := false |})].

Definition has_object_permission (action : string) (user : User.t)
    (obj : Expense.t) : bool :=
  match find (fun kv => String.eqb (fst kv) action) ALLOWED_TRANSITIONS with
  | None => true
  | Some (_, transition) =>
      if match from_states transition with
         | None => false
         | Some states => negb (existsb (ExpenseState_eqb (state obj)) states)
         end
      then false
      else if negb (existsb (Role_eqb (User.role user)) (required_roles transition))
      then false
      else if owner_only transition
              && negb (User.id (employee obj) =? User.id user)
      then false
      else true
  end.

End ExpenseStatePermission.

Module BusinessRulePermission.
Import Expense.

(** [try: expense.<rules>(user); return True / except Exception: return False] *)
Definition passes (rules : M unit) (expense : Expense.t) : bool :=
  match snd (rules expense) with
  | inr _ => true
  | inl _ => false
  end.

Definition _validate_submission_rules (w : World) (expense : Expense.t)
    (user : User.t) : bool :=
  passes (Expense._validate_submission_rules w user) expense.

Definition _validate_approval_rules (expense : Expense.t) (user : User.t) : bool :=
  passes (Expense._validate_approval_rules user) expense.

Definition _validate_payment_rules (expense : Expense.t) (user : User.t) : bool :=
  passes (Expense._validate_payment_processing_rules user) expense.

Definition has_object_permission (w : World) (action : string) (user : User.t)
    (obj : Expense.t) : bool :=
  if String.eqb action "submit" then _validate_submission_rules w obj user
  else if String.eqb action "approve" then _validate_approval_rules obj user
  else if String.eqb action "process_payment" then _validate_payment_rules obj user
  else true.

End BusinessRulePermission.

Module ExpenseSubmissionPermission.

Definition has_object_permission (w : Expense.World) (action : string)
    (user : User.t) (obj : Expense.t) : bool :=
  forallb (fun perm => perm tt)
    [fun _ => CanSubmitExpense.has_object_permission user obj;
     fun _ => ExpenseStatePermission.has_object_permission action user obj;
     fun _ => BusinessRulePermission.has_object_permission w action user obj].

End ExpenseSubmissionPermission.

Module ExpenseApprovalPermission.

Definition has_object_permission (w : Expense.World) (action : string)
    (user : User.t) (obj : Expense.t) : bool :=
  forallb (fun perm => perm tt)
    [fun _ => CanApproveExpense.has_object_permission user obj;
     fun _ => ExpenseStatePermission.has_object_permission action user obj;
     fun _ => BusinessRulePermission.has_object_permission w action user obj].

End ExpenseApprovalPermission.

Module ExpensePaymentPermission.

Definition has_object_permission (w : Expense.World) (action : string)
    (user : User.t) (obj : Expense.t) : bool :=
  forallb (fun perm => perm tt)
    [fun _ => CanProcessPayment.has_object_permission user obj;
     fun _ => ExpenseStatePermission.has_object_permission action user obj;
     fun _ => BusinessRulePermission.has_object_permission w action user obj].

End ExpensePaymentPermission.

(** ** expenses.views.ReceiptViewSet *)

Module ReceiptViewSet.
Import Expense.

Inductive Error : Set :=
| Http404
| Can_only_add_receipts_to_your_own_expenses
| Can_only_add_receipts_to_draft_expenses.

Definition get_queryset (w : World) (user : User.t) : list Receipt.t :=
  let is_employee row := User.id (employee row) =? User.id user in
  let expense_ids :=
    match User.role user with
    | COMPLIANCE => map id (expenses w)
    | VP | CFO => map id (expenses w)
    | FINANCE =>
        map id
          (filter (fun row => is_employee row
                              || existsb (ExpenseState_eqb (state row))
                                   [APPROVED; PAID])
                  (expenses w))
    | MANAGER =>
        map id
          (filter (fun row => is_employee row
                              || is_user (User.manager (employee row)) user
                              || is_user (manager row) user)
                  (expenses w))
    | EMPLOYEE => map id (filter is_employee (expenses w))
    end in
  filter (fun r => existsb (Z.eqb (Receipt.expense r)) expense_ids) (receipts w).

(** [perform_create]: [expense_id] is [request.data.get('expense')], the
    other arguments are the validated fields of the receipt; the new row
    gets a fresh primary key. *)
Definition perform_create (w : World) (user : User.t) (expense_id : option Z)
    (file_name : string) (file_size : Z) (mime_type : string)
  : Error + World :=
  match match expense_id with
        | Some pk => find (fun row => id row =? pk) (expenses w)
        | None => None
        end with
  | None => inl Http404
  | Some expense =>
      if negb (User.id (employee expense) =? User.id user)
      then inl Can_only_add_receipts_to_your_own_expenses
      else if negb (ExpenseState_eqb (state expense) DRAFT)
      then inl Can_only_add_receipts_to_draft_expenses
      else
        inr {| now := now w; uuid4 := uuid4 w; users := users w;
               expenses := expenses w;
               receipts :=
                 {| Receipt.id := uuid4 w; Receipt.expense := id expense;
                    Receipt.file_name := file_name;
                    Receipt.file_size := file_size;
                    Receipt.mime_type := mime_type |} :: receipts w |}
  end.

End ReceiptViewSet.

(** ** Transition requests and the transition table

    A request names a transition method with its arguments; [call] is the
    method call.  [run] plays a sequence of requests against one instance,
    each with the database and clock of its moment; a request that raises
    leaves the instance as the raising method left it. *)

Inductive Transition : Set :=
  t_submit | t_approve | t_reject | t_withdraw | t_process_payment
| t_flag_suspicious | t_executive_override.

Record Request : Set := {
  req_transition : Transition;
  req_user : User.t;
  req_reason : string      (* read by reject, flag_suspicious, executive_override *)
}.

Definition call (w : Expense.World) (r : Request) : Expense.M unit :=
  match req_transition r with
  | t_submit => Expense.submit w (req_user r)
  | t_approve => Expense.approve w (req_user r)
  | t_reject => Expense.reject w (req_user r) (req_reason r)
  | t_withdraw => Expense.withdraw (req_user r)
  | t_process_payment => Expense.process_payment w (req_user r)
  | t_flag_suspicious => Expense.flag_suspicious w (req_user r) (req_reason r)
  | t_executive_override => Expense.executive_override w (req_user r) (req_reason r)
  end.

Fixpoint run (requests : list (Expense.World * Request)) (self : Expense.t)
  : Expense.t :=
  match requests with
  | [] => self
  | (w, r) :: rest => run rest (fst (call w r self))
  end.

(** The transition table as the specification gives it (section 4.5):
    the source states and the target state of each transition. *)
Definition table_from (tr : Transition) (s : ExpenseState) : bool :=
  match tr with
  | t_submit => ExpenseState_eqb s DRAFT
  | t_approve => ExpenseState_eqb s SUBMITTED
  | t_reject => ExpenseState_eqb s SUBMITTED || ExpenseState_eqb s COMPLIANCE_HOLD
  | t_withdraw => ExpenseState_eqb s SUBMITTED
  | t_process_payment => ExpenseState_eqb s APPROVED
  | t_flag_suspicious => true
  | t_executive_override => true
  end.

Definition table_to (tr : Transition) : ExpenseState :=
  match tr with
  | t_submit => SUBMITTED
  | t_approve => APPROVED
  | t_reject => REJECTED
  | t_withdraw => DRAFT
  | t_process_payment => PAID
  | t_flag_suspicious => COMPLIANCE_HOLD
  | t_executive_override => APPROVED
  end.

Inductive edge : ExpenseState -> ExpenseState -> Prop :=
| edge_of (tr : Transition) (s : ExpenseState) :
    table_from tr s = true -> edge s (table_to tr).

Inductive path : ExpenseState -> ExpenseState -> Prop :=
| path_nil (s : ExpenseState) : path s s
| path_step (s1 s2 s3 : ExpenseState) : edge s1 s2 -> path s2 s3 -> path s1 s3.

(** ** Sample data

    The users of [seed_users] (primary keys in creation order) and a clock
    reading of 2024-03-15T12:00:00Z. *)

Module Seed.

Definition john_employee : User.t :=
  {| User.id := 1; User.role := EMPLOYEE; User.department := "Engineering";
     User.manager := Some 2; User.approval_limit := Some 0;
     User.monthly_expense_limit := Some 200000;
     User.is_active := true; User.is_active_approver := true |}.

Definition jane_manager : User.t :=
  {| User.id := 2; User.role := MANAGER; User.department := "Engineering";
     User.manager := Some 5; User.approval_limit := Some 500000;
     User.monthly_expense_limit := Some 500000;
     User.is_active := true; User.is_active_approver := true |}.

Definition mike_finance : User.t :=
  {| User.id := 3; User.role := FINANCE; User.department := "Finance";
     User.manager := None; User.approval_limit := Some 500000;
     User.monthly_expense_limit := Some 1000000;
     User.is_active := true; User.is_active_approver := true |}.

Definition sarah_compliance : User.t :=
  {| User.id := 4; User.role := COMPLIANCE; User.department := "Compliance";
     User.manager := None; User.approval_limit := Some 500000;
     User.monthly_expense_limit := Some 500000;
     User.is_active := true; User.is_active_approver := true |}.

Definition david_vp : User.t :=
  {| User.id := 5; User.role := VP; User.department := "Executive";
     User.manager := Some 6; User.approval_limit := Some 5000000;
     User.monthly_expense_limit := Some 1500000;
     User.is_active := true; User.is_active_approver := true |}.

Definition lisa_cfo : User.t :=
  {| User.id := 6; User.role := CFO; User.department := "Executive";
     User.manager := None; User.approval_limit := Some 99999999;
     User.monthly_expense_limit := Some 2500000;
     User.is_active := true; User.is_active_approver := true |}.

Definition all_users : list User.t :=
  [john_employee; jane_manager; mike_finance; sarah_compliance; david_vp; lisa_cfo].

(** 2024-03-15T12:00:00Z, on day 19797; the month started at
    1709251200000000. *)
Definition noon_march_15 : Z := 1710504000000000.

(** A draft of [john_employee], created on 2024-03-10. *)
Definition draft_dated (pk amount : Z) (category : ExpenseCategory)
    (expense_date : Z) : Expense.t :=
  {| Expense.id := pk;
     Expense.employee := john_employee;
     Expense.amount := amount;
     Expense.expense_category := category;
     Expense.currency := "USD";
     Expense.expense_date := expense_date;
     Expense.vendor_id := "ACME_TRAVEL";
     Expense.department := "Engineering";
     Expense.description := "Client visit and related costs";
     Expense.state := DRAFT;
     Expense.manager := None;
     Expense.finance_user := None;
     Expense.compliance_user := None;
     Expense.submitted_at := None;
     Expense.approved_at := None;
     Expense.approved_by := None;
     Expense.processed_at := None;
     Expense.processed_by := None;
     Expense.rejected_at := None;
     Expense.rejection_reason := "";
     Expense.flagged_at := None;
     Expense.flagged_by := None;
     Expense.flag_reason := "";
     Expense.override_reason := "";
     Expense.payment_details := None;
     Expense.created_at := 1710028800000000 + pk;
     Expense.updated_at := 1710028800000000 + pk |}.

(** The draft of an expense of 2024-03-09 (day 19791). *)
Definition draft (pk amount : Z) (category : ExpenseCategory) : Expense.t :=
  draft_dated pk amount category 19791.

(** The same expense after [john_employee] submitted it on 2024-03-11. *)
Definition submitted (pk amount : Z) (category : ExpenseCategory) : Expense.t :=
  Expense.set_state SUBMITTED
    (Expense.set_submitted_at (Some 1710115200000000)
       (Expense.set_compliance_user (Some 4)
          (Expense.set_finance_user (Some 3)
             (Expense.set_manager (Some 2) (draft pk amount category))))).

Definition world (rows : list Expense.t) : Expense.World :=
  {| Expense.now := noon_march_15; Expense.uuid4 := 1000;
     Expense.users := all_users; Expense.expenses := rows;
     Expense.receipts := [] |}.

End Seed.


Import Expense.

(** ** Predicates on methods and on query results

    A computation is [readonly] when it never writes the instance, [total]
    when it never raises, and [fails_clean] when a raise leaves the instance
    as it found it.  Every transition method is a run of checks followed by
    a run of assignments. *)

Definition readonly {A : Type} (c : M A) : Prop :=
  forall self, fst (c self) = self.

Definition total {A : Type} (c : M A) : Prop :=
  forall self, exists a, snd (c self) = inr a.

Definition fails_clean {A : Type} (c : M A) : Prop :=
  forall self self' exc, c self = (self', inl exc) -> self' = self.

(** [u] is the first row, in primary key order, that satisfies [p]. *)
Definition is_first (p : User.t -> bool) (rows : list User.t) (u : User.t) : Prop :=
  In u rows /\ p u = true
  /\ forall v, In v rows -> p v = true -> User.id u <= User.id v.


(** The instance a request leaves behind when its method returns normally. *)
Definition written (w : World) (r : Request) (self : Expense.t) : Expense.t :=
  let user := req_user r in
  match req_transition r with
  | t_submit =>
      set_state SUBMITTED
        (set_submitted_at (Some (now w))
           (set_compliance_user (option_map User.id (_get_compliance_user w))
              (set_finance_user (option_map User.id (_get_finance_user w))
                 (set_manager (_get_direct_manager self) self))))
  | t_approve =>
      set_state APPROVED
        (set_approved_by (Some (User.id user))
           (set_approved_at (Some (now w)) self))
  | t_reject =>
      set_state REJECTED
        (set_rejection_reason (req_reason r)
           (set_rejected_at (Some (now w)) self))
  | t_withdraw =>
      set_state DRAFT
        (set_compliance_user None
           (set_finance_user None
              (set_manager None (set_submitted_at None self))))
  | t_process_payment =>
      set_state PAID
        (set_payment_details
           (Some (_generate_payment_details w
                    (set_processed_by (Some (User.id user))
                       (set_processed_at (Some (now w)) self))))
           (set_processed_by (Some (User.id user))
              (set_processed_at (Some (now w)) self)))
  | t_flag_suspicious =>
      set_state COMPLIANCE_HOLD
        (set_flag_reason (req_reason r)
           (set_flagged_by (Some (User.id user))
              (set_flagged_at (Some (now w)) self)))
  | t_executive_override =>
      set_state APPROVED
        (set_override_reason (req_reason r)
           (set_approved_by (Some (User.id user))
              (set_approved_at (Some (now w)) self)))
  end.

(** What a request needs to return normally: the checks of its method, in
    the order the method makes them. *)
Definition permitted (w : World) (r : Request) (self : Expense.t) : bool :=
  let user := req_user r in
  match req_transition r with
  | t_submit =>
      ExpenseState_eqb (state self) DRAFT
      && (User.id user =? User.id (employee self))
      && (negb (amount self >? EXPENSE_RULES.MAX_AMOUNT_WITHOUT_RECEIPT)
          || receipts_exists w self)
      && negb (get_monthly_submitted_amount w user + amount self
               >? User.get_monthly_expense_limit user)
      && negb (_is_vendor_blacklisted self)
      && negb (_is_duplicate_expense w self)
  | t_approve =>
      ExpenseState_eqb (state self) SUBMITTED
      && User.can_approve_expenses user
      && (negb (Role_eqb (User.role user) MANAGER) || is_user (manager self) user)
      && User.can_approve_amount user (amount self)
      && negb (amount self >? _get_remaining_department_budget self)
      && negb (ExpenseCategory_eqb (expense_category self) ENTERTAINMENT
               && (amount self >? EXPENSE_RULES.ENTERTAINMENT_REQUIRES_VP)
               && negb (User.is_vp user) && negb (User.is_cfo user))
  | t_reject =>
      (ExpenseState_eqb (state self) SUBMITTED
       || ExpenseState_eqb (state self) COMPLIANCE_HOLD)
      && User.can_approve_expenses user
  | t_withdraw =>
      ExpenseState_eqb (state self) SUBMITTED
      && (User.id user =? User.id (employee self))
  | t_process_payment =>
      ExpenseState_eqb (state self) APPROVED && User.can_process_payments user
  | t_flag_suspicious => User.can_audit_expenses user
  | t_executive_override => User.can_executive_override user
  end.

(** The fields that describe the expense itself. *)
Definition same_expense (a b : Expense.t) : Prop :=
  id a = id b /\ employee a = employee b /\ amount a = amount b
  /\ expense_category a = expense_category b /\ currency a = currency b
  /\ expense_date a = expense_date b /\ vendor_id a = vendor_id b
  /\ department a = department b /\ description a = description b
  /\ created_at a = created_at b /\ updated_at a = updated_at b.

(** The record of each state: what the transition into it has written. *)
Definition recorded (self : Expense.t) : Prop :=
  match state self with
  | DRAFT =>
      submitted_at self = None /\ manager self = None
      /\ finance_user self = None /\ compliance_user self = None
  | SUBMITTED => submitted_at self <> None
  | APPROVED => approved_at self <> None /\ approved_by self <> None
  | COMPLIANCE_HOLD => flagged_at self <> None /\ flagged_by self <> None
  | REJECTED => rejected_at self <> None
  | PAID =>
      processed_at self <> None /\ processed_by self <> None
      /\ exists details,
           payment_details self = Some details
           /\ pd_amount details = amount self
           /\ pd_vendor_id details = vendor_id self
           /\ pd_currency details = currency self
           /\ payment_method details = "ACH_TRANSFER"
  end.

(** The states after the first approval decision: neither draft nor
    submitted. *)
Definition decided (s : ExpenseState) : Prop := s <> DRAFT /\ s <> SUBMITTED.

(** What [clean] guarantees of a stored row whatever the date, with unique
    primary keys. *)
Definition stored_ok (w : World) : Prop :=
  NoDup (map id (expenses w))
  /\ forall row, In row (expenses w) ->
       0 < amount row /\ (10 <= String.length (description row))%nat.

(** * Properties *)

Ltac unfold_monad :=
  unfold transition, bind, when_, raise, ret, get, assign.


(** ** How methods fail *)

Lemma readonly_ret {A : Type} (a : A) : readonly (ret a).
Proof. intros self; reflexivity. Qed.

Lemma readonly_raise {A : Type} (exc : Exception) : readonly (@raise A exc).
Proof. intros self; reflexivity. Qed.

Lemma readonly_get : readonly get.
Proof. intros self; reflexivity. Qed.

Lemma readonly_bind {A B : Type} (c : M A) (k : A -> M B) :
  readonly c -> (forall a, readonly (k a)) -> readonly (bind c k).
Proof.
  intros Hc Hk self. unfold bind.
  specialize (Hc self). destruct (c self) as [self1 [exc | a]]; simpl in *.
  - exact Hc.
  - subst self1. apply Hk.
Qed.

Lemma readonly_when (b : bool) (c : M unit) : readonly c -> readonly (when_ b c).
Proof. intros Hc. destruct b; simpl; [exact Hc | apply readonly_ret]. Qed.

Lemma total_ret {A : Type} (a : A) : total (ret a).
Proof. intros self; exists a; reflexivity. Qed.

Lemma total_assign (f : t -> t) : total (assign f).
Proof. intros self; exists tt; reflexivity. Qed.

Lemma total_get : total get.
Proof. intros self; exists self; reflexivity. Qed.

Lemma total_bind {A B : Type} (c : M A) (k : A -> M B) :
  total c -> (forall a, total (k a)) -> total (bind c k).
Proof.
  intros Hc Hk self. unfold bind.
  destruct (Hc self) as [a Ha]. destruct (c self) as [self1 r]; simpl in Ha.
  subst r. apply Hk.
Qed.

Lemma fails_clean_total {A : Type} (c : M A) : total c -> fails_clean c.
Proof.
  intros Hc self self' exc H. destruct (Hc self) as [a Ha].
  rewrite H in Ha. discriminate.
Qed.

Lemma fails_clean_readonly {A : Type} (c : M A) : readonly c -> fails_clean c.
Proof. intros Hc self self' exc H. specialize (Hc self). rewrite H in Hc. exact Hc. Qed.

Lemma fails_clean_bind {A B : Type} (c : M A) (k : A -> M B) :
  readonly c -> (forall a, fails_clean (k a)) -> fails_clean (bind c k).
Proof.
  intros Hc Hk self self' exc. unfold bind.
  specialize (Hc self). destruct (c self) as [self1 [e1 | a]]; simpl in Hc; subst self1.
  - intros H; inversion H; reflexivity.
  - apply Hk.
Qed.

Lemma fails_clean_transition source target (method : M unit) :
  fails_clean method -> fails_clean (transition source target method).
Proof.
  intros Hm self self' exc. unfold transition.
  destruct (match source with None => true | Some l => _ end).
  - destruct (method self) as [self1 [e1 | u]] eqn:E.
    + intros H; inversion H; subst. eapply Hm; eassumption.
    + discriminate.
  - intros H; inversion H; reflexivity.
Qed.

Ltac solve_readonly :=
  repeat first
    [ apply readonly_get | apply readonly_ret | apply readonly_raise
    | apply readonly_when
    | apply readonly_bind; [ | intros ? ]
    | match goal with
      | |- readonly (match ?x with _ => _ end) => destruct x
      end ].

Ltac solve_total :=
  repeat first
    [ apply total_assign | apply total_ret | apply total_get
    | apply total_bind; [ | intros ? ] ].

Ltac solve_fails_clean :=
  first
    [ apply fails_clean_readonly; solve [ solve_readonly ]
    | apply fails_clean_total; solve [ solve_total ]
    | apply fails_clean_bind; [ solve [ solve_readonly ] | intros ?; solve_fails_clean ] ].

Lemma readonly_validate_submission_rules w user :
  readonly (_validate_submission_rules w user).
Proof. unfold _validate_submission_rules; cbv zeta. solve_readonly. Qed.

Lemma readonly_validate_approval_rules user :
  readonly (_validate_approval_rules user).
Proof. unfold _validate_approval_rules; cbv zeta. solve_readonly. Qed.

Lemma readonly_validate_payment_processing_rules user :
  readonly (_validate_payment_processing_rules user).
Proof. unfold _validate_payment_processing_rules. solve_readonly. Qed.

Lemma readonly_clean w : readonly (clean w).
Proof. unfold clean; cbv zeta. solve_readonly. Qed.

Lemma call_fails_clean w r : fails_clean (call w r).
Proof.
  unfold call.
  destruct (req_transition r);
    unfold submit, approve, reject, withdraw, process_payment, flag_suspicious,
      executive_override, _validate_submission_rules, _validate_approval_rules,
      _validate_payment_processing_rules;
    cbv zeta; apply fails_clean_transition; solve_fails_clean.
Qed.

(** ** The decorator and the transition table *)

Lemma transition_returns source target (method : M unit) self self' u :
  transition source target method self = (self', inr u) ->
  match source with
  | None => true
  | Some l => existsb (ExpenseState_eqb (state self)) l
  end = true
  /\ state self' = target.
Proof.
  unfold transition.
  destruct (match source with None => true | Some l => _ end).
  - destruct (method self) as [self1 [exc | v]]; intros H; inversion H.
    split; reflexivity.
  - discriminate.
Qed.

Lemma transition_not_allowed source target (method : M unit) self :
  match source with
  | None => true
  | Some l => existsb (ExpenseState_eqb (state self)) l
  end = false ->
  transition source target method self = (self, inl TransitionNotAllowed).
Proof. unfold transition. intros ->. reflexivity. Qed.

Lemma call_returns w r self self' u :
  call w r self = (self', inr u) ->
  table_from (req_transition r) (state self) = true
  /\ state self' = table_to (req_transition r).
Proof.
  unfold call, submit, approve, reject, withdraw, process_payment,
    flag_suspicious, executive_override.
  destruct (req_transition r); intros H; apply transition_returns in H;
    destruct H as [Hsrc Htgt]; (split; [ | exact Htgt ]);
    destruct (state self); simpl in *; congruence.
Qed.

Lemma call_not_allowed w r self :
  table_from (req_transition r) (state self) = false ->
  call w r self = (self, inl TransitionNotAllowed).
Proof.
  unfold call, submit, approve, reject, withdraw, process_payment,
    flag_suspicious, executive_override.
  destruct (req_transition r); intros H;
    try discriminate H; apply transition_not_allowed;
    destruct (state self); simpl in *; congruence.
Qed.

Lemma call_step w r self :
  fst (call w r self) = self \/ edge (state self) (state (fst (call w r self))).
Proof.
  destruct (call w r self) as [self' [exc | u]] eqn:E; simpl.
  - left. eapply call_fails_clean; eassumption.
  - right. apply call_returns in E. destruct E as [Hsrc Htgt].
    rewrite Htgt. constructor. exact Hsrc.
Qed.

Lemma run_path requests : forall self, path (state self) (state (run requests self)).
Proof.
  induction requests as [ | [w r] rest IH]; intros self; simpl.
  - constructor.
  - destruct (call_step w r self) as [Hsame | Hedge].
    + rewrite Hsame. apply IH.
    + eapply path_step; [ exact Hedge | apply IH ].
Qed.

(** C1. Whatever requests are played against an expense, its state moves
    only along edges of the transition table: the state after the whole
    sequence is linked to the initial state by a path of table edges; a
    request that returns normally was made from a source state of its
    transition and leaves the expense in the transition's target state; and
    a request made from a state that is not a source of its transition
    raises [TransitionNotAllowed] and leaves the expense, state included,
    as it was. *)
Theorem C1_state_moves_along_transition_table :
  forall (requests : list (World * Request)) (self : Expense.t),
    path (state self) (state (run requests self))
    /\ (forall w r self',
          call w r self = (self', inr tt) ->
          table_from (req_transition r) (state self) = true
          /\ state self' = table_to (req_transition r))
    /\ (forall w r,
          table_from (req_transition r) (state self) = false ->
          call w r self = (self, inl TransitionNotAllowed)).
Proof.
  intros requests self. split; [ | split ].
  - apply run_path.
  - intros w r self' H. eapply call_returns; exact H.
  - intros w r H. apply call_not_allowed; exact H.
Qed.

(** C2. When a transition request raises, for whatever reason (the
    authorization check, a business rule, the state guard of the decorator or
    the missing manager of [approve]), the expense is exactly the record it
    was before the call: state and every field. *)
Theorem C2_failed_transition_mutates_nothing :
  forall (w : World) (r : Request) (self self' : Expense.t) (exc : Exception),
    call w r self = (self', inl exc) -> self' = self.
Proof. intros w r self self' exc H. eapply call_fails_clean; exact H. Qed.

Lemma C2_witness :
  call (Seed.world []) 
    {| req_transition := t_approve; req_user := Seed.john_employee; req_reason := "" |}
    (Seed.submitted 10 500 MEALS)
  = (Seed.submitted 10 500 MEALS, inl (ValidationError User_cannot_approve_expenses))
  /\ Seed.submitted 10 500 MEALS = Seed.submitted 10 500 MEALS.
Proof.
  split; [ reflexivity | ].
  apply (C2_failed_transition_mutates_nothing (Seed.world [])
           {| req_transition := t_approve; req_user := Seed.john_employee;
              req_reason := "" |}
           (Seed.submitted 10 500 MEALS) (Seed.submitted 10 500 MEALS)
           (ValidationError User_cannot_approve_expenses)).
  reflexivity.
Defined.

(** ** Requests that do not answer 200

    A view writes the database only through [save], after the method has
    returned normally and [clean] has passed: any other answer leaves the
    database as it was. *)



(** ** approve *)

Lemma get_approval_limit_set (user : User.t) (l : Z) :
  User.approval_limit user = Some l -> User.get_approval_limit user = l.
Proof.
  unfold User.get_approval_limit. intros ->.
  destruct (l =? 0) eqn:E; [ apply Z.eqb_eq in E; congruence | reflexivity ].
Qed.

Lemma remaining_department_budget_at_least (self : Expense.t) :
  1500000 <= _get_remaining_department_budget self.
Proof.
  unfold _get_remaining_department_budget. cbn [find fst snd].
  repeat match goal with
         | |- context [if String.eqb ?a ?b then _ else _] =>
             destruct (String.eqb a b)
         end; cbn [snd]; lia.
Qed.

(** What [approve] does once the state guard and the role checks are
    passed. *)
Lemma approve_permitted w user self :
  state self = SUBMITTED ->
  User.can_approve_expenses user = true ->
  (User.role user = MANAGER -> manager self = Some (User.id user)) ->
  approve w user self =
    if negb (User.can_approve_amount user (amount self))
    then (self, inl (ValidationError (Amount_exceeds_approval_limit (amount self))))
    else if amount self >? _get_remaining_department_budget self
    then (self, inl (ValidationError Insufficient_departmental_budget))
    else if ExpenseCategory_eqb (expense_category self) ENTERTAINMENT
            && (amount self >? EXPENSE_RULES.ENTERTAINMENT_REQUIRES_VP)
            && negb (User.is_vp user) && negb (User.is_cfo user)
    then (self, inl (ValidationError Entertainment_expenses_over_200_require_VP_approval))
    else (set_state APPROVED
            (set_approved_by (Some (User.id user))
               (set_approved_at (Some (now w)) self)), inr tt).
Proof.
  intros Hstate Hcan Hmgr.
  unfold approve, _validate_approval_rules. unfold_monad.
  rewrite Hstate, Hcan. cbn [existsb ExpenseState_eqb orb negb].
  assert (Hmgr' : Role_eqb (User.role user) MANAGER = true ->
                  manager self = Some (User.id user)).
  { destruct (User.role user); try discriminate. intros _; apply Hmgr; reflexivity. }
  destruct (Role_eqb (User.role user) MANAGER);
    [ rewrite (Hmgr' eq_refl), Z.eqb_refl; cbn [negb] | ];
    cbv beta iota;
    (destruct (User.can_approve_amount user (amount self));
       cbn [negb]; cbv beta iota; [ | reflexivity ]);
    (destruct (amount self >? _get_remaining_department_budget self);
       cbv beta iota; [ reflexivity | ]);
    destruct (ExpenseCategory_eqb (expense_category self) ENTERTAINMENT
              && (amount self >? EXPENSE_RULES.ENTERTAINMENT_REQUIRES_VP)
              && negb (User.is_vp user) && negb (User.is_cfo user));
    reflexivity.
Qed.

(** What a normal return of [approve] implies: every check passed. *)
Lemma approve_returns w user self self' u :
  approve w user self = (self', inr u) ->
  state self = SUBMITTED
  /\ User.can_approve_expenses user = true
  /\ (Role_eqb (User.role user) MANAGER = true -> manager self = Some (User.id user))
  /\ User.can_approve_amount user (amount self) = true
  /\ (amount self >? _get_remaining_department_budget self) = false
  /\ ExpenseCategory_eqb (expense_category self) ENTERTAINMENT
     && (amount self >? EXPENSE_RULES.ENTERTAINMENT_REQUIRES_VP)
     && negb (User.is_vp user) && negb (User.is_cfo user) = false.
Proof.
  unfold approve, _validate_approval_rules. unfold_monad.
  destruct (state self); cbn [existsb ExpenseState_eqb orb]; try discriminate.
  destruct (User.can_approve_expenses user); cbn [negb]; cbv beta iota;
    [ | discriminate ].
  destruct (Role_eqb (User.role user) MANAGER).
  - destruct (manager self) as [m | ]; cbv beta iota; [ | discriminate ].
    destruct (m =? User.id user) eqn:Em; cbn [negb]; cbv beta iota;
      [ apply Z.eqb_eq in Em; subst m | discriminate ].
    destruct (User.can_approve_amount user (amount self)); cbn [negb];
      cbv beta iota; [ | discriminate ].
    destruct (amount self >? _get_remaining_department_budget self);
      cbv beta iota; [ discriminate | ].
    destruct (ExpenseCategory_eqb (expense_category self) ENTERTAINMENT
              && (amount self >? EXPENSE_RULES.ENTERTAINMENT_REQUIRES_VP)
              && negb (User.is_vp user) && negb (User.is_cfo user));
      cbv beta iota; [ discriminate | ].
    intros _. repeat split; reflexivity.
  - cbv beta iota.
    destruct (User.can_approve_amount user (amount self)); cbn [negb];
      cbv beta iota; [ | discriminate ].
    destruct (amount self >? _get_remaining_department_budget self);
      cbv beta iota; [ discriminate | ].
    destruct (ExpenseCategory_eqb (expense_category self) ENTERTAINMENT
              && (amount self >? EXPENSE_RULES.ENTERTAINMENT_REQUIRES_VP)
              && negb (User.is_vp user) && negb (User.is_cfo user));
      cbv beta iota; [ discriminate | ].
    intros _. repeat split; try reflexivity. discriminate.
Qed.


Lemma can_approve_amount_false_iff (user : User.t) (amount : Z) :
  negb (User.can_approve_amount user amount) = true
  <-> User.get_approval_limit user < amount.
Proof.
  unfold User.can_approve_amount. rewrite negb_true_iff, Z.geb_leb, Z.leb_gt.
  reflexivity.
Qed.

(** C3. On a submitted expense, for an actor who passes the role checks of
    [approve] (an active manager, vp or cfo; a manager being the assigned
    one), [approve] raises the limit error exactly when the actor's approval
    limit ([approval_limit], an unset one counting as 0) is strictly below
    the amount.  With a limit of 5000.00 an amount of 5000.01 is refused
    with that error; an amount of exactly 5000.00 is not, and the approval
    goes through unless the entertainment rule stops it. *)
Theorem C3_approve_limit_exceeded_iff_limit_below_amount :
  forall (w : World) (user : User.t) (self : Expense.t),
    state self = SUBMITTED ->
    User.can_approve_expenses user = true ->
    (User.role user = MANAGER -> manager self = Some (User.id user)) ->
    let limit_exceeded :=
      (self, @inl Exception unit
               (ValidationError (Amount_exceeds_approval_limit (amount self)))) in
    (approve w user self = limit_exceeded
     <-> User.get_approval_limit user < amount self)
    /\ (forall l, User.approval_limit user = Some l ->
                  (approve w user self = limit_exceeded <-> l < amount self))
    /\ (User.approval_limit user = Some 500000 -> amount self = 500001 ->
        approve w user self = limit_exceeded)
    /\ (User.approval_limit user = Some 500000 -> amount self = 500000 ->
        approve w user self <> limit_exceeded
        /\ (expense_category self <> ENTERTAINMENT ->
            approve w user self =
              (set_state APPROVED
                 (set_approved_by (Some (User.id user))
                    (set_approved_at (Some (now w)) self)), inr tt))).
Proof.
  intros w user self Hstate Hcan Hmgr limit_exceeded.
  assert (Hiff : approve w user self = limit_exceeded
                 <-> User.get_approval_limit user < amount self).
  { rewrite <- can_approve_amount_false_iff.
    rewrite (approve_permitted w user self Hstate Hcan Hmgr).
    subst limit_exceeded.
    destruct (negb (User.can_approve_amount user (amount self))).
    - split; reflexivity.
    - split; [ | discriminate ].
      destruct (amount self >? _get_remaining_department_budget self);
        [ discriminate | ].
      destruct (ExpenseCategory_eqb (expense_category self) ENTERTAINMENT
                && (amount self >? EXPENSE_RULES.ENTERTAINMENT_REQUIRES_VP)
                && negb (User.is_vp user) && negb (User.is_cfo user));
        discriminate. }
  split; [ exact Hiff | ].
  split; [ intros l Hl; rewrite Hiff, (get_approval_limit_set user l Hl); reflexivity | ].
  split.
  - intros Hl Ha. apply Hiff. rewrite (get_approval_limit_set user _ Hl). lia.
  - intros Hl Ha. split.
    + rewrite Hiff, (get_approval_limit_set user _ Hl). lia.
    + intros Hcat.
      rewrite (approve_permitted w user self Hstate Hcan Hmgr).
      unfold User.can_approve_amount.
      rewrite (get_approval_limit_set user _ Hl), Ha.
      pose proof (remaining_department_budget_at_least self) as Hb.
      replace (500000 >? _get_remaining_department_budget self) with false
        by (symmetry; rewrite Z.gtb_ltb; apply Z.ltb_ge; lia).
      replace (ExpenseCategory_eqb (expense_category self) ENTERTAINMENT) with false
        by (destruct (expense_category self); try reflexivity; congruence).
      reflexivity.
Qed.

Lemma C3_witness :
  let w := Seed.world [] in
  let self := Seed.submitted 10 500000 TRAVEL in
  approve w Seed.jane_manager self =
    (set_state APPROVED
       (set_approved_by (Some 2) (set_approved_at (Some (now w)) self)), inr tt).
Proof.
  intros w self.
  refine (proj2 (proj2 (proj2 (proj2
    (C3_approve_limit_exceeded_iff_limit_below_amount w Seed.jane_manager self
       _ _ _))) _ _) _).
  - reflexivity.
  - reflexivity.
  - intros _; reflexivity.
  - reflexivity.
  - reflexivity.
  - discriminate.
Defined.




(** C10. On a submitted expense with no assigned manager, [approve] by an
    active approver whose role is manager raises [AttributeError] (reading
    [id] of a missing manager) and leaves the expense as it was; the
    validation error for a manager who is not the assigned one comes only
    from an expense that has a manager, a different one. *)
Theorem C10_approve_without_manager_raises_attribute_error :
  forall (w : World) (user : User.t) (self : Expense.t),
    (state self = SUBMITTED ->
     manager self = None ->
     User.role user = MANAGER ->
     User.is_active_approver user = true ->
     approve w user self = (self, inl AttributeError))
    /\ (forall self',
          approve w user self =
            (self', inl (ValidationError Manager_can_only_approve_direct_reports)) ->
          exists m, manager self = Some m /\ m <> User.id user).
Proof.
  intros w user self. split.
  - intros Hstate Hnone Hrole Hactive.
    unfold approve. unfold_monad.
    unfold User.can_approve_expenses.
    rewrite Hstate, Hrole, Hactive.
    cbn [existsb ExpenseState_eqb Role_eqb orb andb negb]. cbv beta iota.
    rewrite Hnone. reflexivity.
  - intros self'.
    unfold approve, _validate_approval_rules. unfold_monad.
    destruct (existsb (ExpenseState_eqb (state self)) [SUBMITTED]);
      [ | discriminate ].
    destruct (User.can_approve_expenses user); cbn [negb]; cbv beta iota;
      [ | discriminate ].
    destruct (Role_eqb (User.role user) MANAGER).
    + destruct (manager self) as [m | ]; cbv beta iota; [ | discriminate ].
      destruct (m =? User.id user) eqn:Em; cbn [negb]; cbv beta iota.
      * repeat match goal with
               | |- context [if ?b then _ else _] =>
                   destruct b; cbv beta iota; try discriminate
               end.
      * intros _. exists m. split; [ reflexivity | ].
        apply Z.eqb_neq. exact Em.
    + cbv beta iota.
      repeat match goal with
             | |- context [if ?b then _ else _] =>
                 destruct b; cbv beta iota; try discriminate
             end.
Qed.

Lemma C10_witness :
  let self := set_manager None (Seed.submitted 10 500 MEALS) in
  approve (Seed.world []) Seed.jane_manager self = (self, inl AttributeError).
Proof.
  intros self.
  apply (proj1 (C10_approve_without_manager_raises_attribute_error
                  (Seed.world []) Seed.jane_manager self));
    reflexivity.
Defined.

(** ** withdraw *)

(** C9. [withdraw] by the owner of a submitted expense returns normally:
    the expense is back in draft, [submitted_at], [manager], [finance_user]
    and [compliance_user] are unset, and every other field is what it was.
    On a draft, [withdraw] raises [TransitionNotAllowed] and changes
    nothing. *)
Theorem C9_withdraw_resets_submission_fields_only :
  forall (user : User.t) (self : Expense.t),
    (state self = SUBMITTED ->
     User.id user = User.id (employee self) ->
     withdraw user self =
       (set_state DRAFT
          (set_compliance_user None
             (set_finance_user None
                (set_manager None (set_submitted_at None self)))), inr tt)
     /\ (let self' := fst (withdraw user self) in
         state self' = DRAFT
         /\ manager self' = None /\ finance_user self' = None
         /\ compliance_user self' = None /\ submitted_at self' = None
         /\ id self' = id self /\ employee self' = employee self
         /\ amount self' = amount self
         /\ expense_category self' = expense_category self
         /\ currency self' = currency self
         /\ expense_date self' = expense_date self
         /\ vendor_id self' = vendor_id self
         /\ department self' = department self
         /\ description self' = description self
         /\ approved_at self' = approved_at self
         /\ approved_by self' = approved_by self
         /\ processed_at self' = processed_at self
         /\ processed_by self' = processed_by self
         /\ rejected_at self' = rejected_at self
         /\ rejection_reason self' = rejection_reason self
         /\ flagged_at self' = flagged_at self
         /\ flagged_by self' = flagged_by self
         /\ flag_reason self' = flag_reason self
         /\ override_reason self' = override_reason self
         /\ payment_details self' = payment_details self
         /\ created_at self' = created_at self
         /\ updated_at self' = updated_at self))
    /\ (state self = DRAFT ->
        withdraw user self = (self, inl TransitionNotAllowed)).
Proof.
  intros user self. split.
  - intros Hstate Howner.
    assert (H : withdraw user self =
       (set_state DRAFT
          (set_compliance_user None
             (set_finance_user None
                (set_manager None (set_submitted_at None self)))), inr tt)).
    { unfold withdraw. unfold_monad.
      rewrite Hstate, Howner, Z.eqb_refl. reflexivity. }
    split; [ exact H | ].
    rewrite H. cbn [fst]. repeat split.
  - intros Hstate. unfold withdraw. unfold_monad. rewrite Hstate. reflexivity.
Qed.

Lemma C9_witness :
  let self := Seed.submitted 10 500 MEALS in
  withdraw Seed.john_employee self =
    (set_state DRAFT
       (set_compliance_user None
          (set_finance_user None
             (set_manager None (set_submitted_at None self)))), inr tt)
  /\ withdraw Seed.john_employee (Seed.draft 10 500 MEALS) =
       (Seed.draft 10 500 MEALS, inl TransitionNotAllowed).
Proof.
  intros self. split.
  - apply (proj1 (C9_withdraw_resets_submission_fields_only
                    Seed.john_employee self)); reflexivity.
  - apply (proj2 (C9_withdraw_resets_submission_fields_only
                    Seed.john_employee (Seed.draft 10 500 MEALS))); reflexivity.
Defined.

(** ** submit *)

(** A normal return of [submit] is the draft with the parties resolved. *)
Lemma submit_returns w user self self' u :
  submit w user self = (self', inr u) ->
  self' =
    set_state SUBMITTED
      (set_submitted_at (Some (now w))
         (set_compliance_user (option_map User.id (_get_compliance_user w))
            (set_finance_user (option_map User.id (_get_finance_user w))
               (set_manager (_get_direct_manager self) self)))).
Proof.
  unfold submit, _validate_submission_rules. unfold_monad. cbv zeta.
  destruct (existsb (ExpenseState_eqb (state self)) [DRAFT]); [ | discriminate ].
  repeat match goal with
         | |- context [if ?b then _ else _] =>
             destruct b; cbv beta iota; try discriminate
         end;
    intros H; inversion H; reflexivity.
Qed.

Lemma first_spec (rows : list User.t) :
  match User.first rows with
  | Some u => In u rows /\ forall v, In v rows -> User.id u <= User.id v
  | None => rows = []
  end.
Proof.
  induction rows as [ | u rest IH]; simpl.
  - reflexivity.
  - destruct (User.first rest) as [v | ].
    + destruct IH as [Hin Hmin].
      destruct (User.id u <=? User.id v) eqn:E.
      * apply Z.leb_le in E. split; [ left; reflexivity | ].
        intros x [<- | Hx]; [ lia | ]. specialize (Hmin x Hx). lia.
      * apply Z.leb_gt in E. split; [ right; exact Hin | ].
        intros x [<- | Hx]; [ lia | ]. apply Hmin; exact Hx.
    + subst rest. split; [ left; reflexivity | ].
      intros x [<- | []]. lia.
Qed.

Lemma first_filter_spec (p : User.t -> bool) (rows : list User.t) :
  match User.first (filter p rows) with
  | Some u => is_first p rows u
  | None => forall v, In v rows -> p v = false
  end.
Proof.
  pose proof (first_spec (filter p rows)) as H.
  destruct (User.first (filter p rows)) as [u | ].
  - destruct H as [Hin Hmin]. apply filter_In in Hin. destruct Hin as [Hin Hp].
    split; [ exact Hin | split; [ exact Hp | ] ].
    intros v Hv Hpv. apply Hmin. apply filter_In. split; assumption.
  - intros v Hv. destruct (p v) eqn:Hp; [ | reflexivity ].
    assert (Hf : In v (filter p rows)) by (apply filter_In; split; assumption).
    rewrite H in Hf. destruct Hf.
Qed.

(** C6 as stated fails: the finance lookup also filters on the department
    ['Finance'].  With one active finance user, of department
    ['Accounting'], a valid submission leaves [finance_user] unset. *)
Lemma C6_counterexample :
  ~ (forall (w : World) (user : User.t) (self self' : Expense.t),
       (exists u, In u (users w) /\ User.role u = FINANCE
                  /\ User.is_active u = true) ->
       submit w user self = (self', inr tt) ->
       finance_user self' <> None).
Proof.
  intros H.
  pose (accountant :=
    {| User.id := 3; User.role := FINANCE; User.department := "Accounting";
       User.manager := None; User.approval_limit := Some 500000;
       User.monthly_expense_limit := Some 1000000;
       User.is_active := true; User.is_active_approver := true |}).
  pose (w := {| now := Seed.noon_march_15; uuid4 := 1000;
                users := [Seed.john_employee; Seed.jane_manager; accountant];
                expenses := [Seed.draft 10 500 MEALS]; receipts := [] |}).
  apply (H w Seed.john_employee (Seed.draft 10 500 MEALS)
           (fst (submit w Seed.john_employee (Seed.draft 10 500 MEALS)))).
  - exists accountant. repeat split. right; right; left; reflexivity.
  - reflexivity.
  - reflexivity.
Qed.

(** C6, amended. When [submit] returns normally, [finance_user] is the
    first (lowest primary key) active user whose role is finance and whose
    department is ['Finance'], and is unset when there is no such user;
    [compliance_user] is the first active user whose role is compliance, and
    is unset when there is none.  So if the users contain an active finance
    user of department ['Finance'], [finance_user] is set. *)
Theorem C6_submit_resolves_finance_and_compliance :
  forall (w : World) (user : User.t) (self self' : Expense.t),
    submit w user self = (self', inr tt) ->
    let finance u :=
      Role_eqb (User.role u) FINANCE
      && String.eqb (User.department u) "Finance" && User.is_active u in
    let compliance u :=
      Role_eqb (User.role u) COMPLIANCE && User.is_active u in
    match finance_user self' with
    | Some pk => exists u, User.id u = pk /\ is_first finance (users w) u
    | None => forall u, In u (users w) -> finance u = false
    end
    /\ match compliance_user self' with
       | Some pk => exists u, User.id u = pk /\ is_first compliance (users w) u
       | None => forall u, In u (users w) -> compliance u = false
       end
    /\ ((exists u, In u (users w) /\ User.role u = FINANCE
                   /\ User.department u = "Finance"
                   /\ User.is_active u = true) ->
        finance_user self' <> None).
Proof.
  intros w user self self' Hret finance compliance.
  apply submit_returns in Hret. subst self'. cbn [finance_user compliance_user set_state set_submitted_at set_compliance_user set_finance_user set_manager].
  unfold _get_finance_user, _get_compliance_user.
  pose proof (first_filter_spec finance (users w)) as Hf.
  pose proof (first_filter_spec compliance (users w)) as Hc.
  fold finance. fold compliance.
  split; [ | split ].
  - destruct (User.first (filter finance (users w))) as [u | ]; simpl.
    + exists u. split; [ reflexivity | exact Hf ].
    + exact Hf.
  - destruct (User.first (filter compliance (users w))) as [u | ]; simpl.
    + exists u. split; [ reflexivity | exact Hc ].
    + exact Hc.
  - intros (u & Hin & Hrole & Hdep & Hact).
    destruct (User.first (filter finance (users w))) as [v | ]; simpl.
    + discriminate.
    + specialize (Hf u Hin). unfold finance in Hf.
      rewrite Hrole, Hdep, Hact in Hf. discriminate Hf.
Qed.

Lemma C6_witness :
  let w := Seed.world [Seed.draft 10 500 MEALS] in
  finance_user (fst (submit w Seed.john_employee (Seed.draft 10 500 MEALS)))
  <> None.
Proof.
  intros w.
  refine (proj2 (proj2
    (C6_submit_resolves_finance_and_compliance w Seed.john_employee
       (Seed.draft 10 500 MEALS) _ _)) _).
  - reflexivity.
  - exists Seed.mike_finance. repeat split.
    right; right; left; reflexivity.
Defined.

(** A stored expense of the user created in the current month is part of
    the monthly total, whatever its state. *)
Lemma monthly_total_counts_stored_row w user self :
  In self (expenses w) ->
  User.id (employee self) = User.id user ->
  replace_day1_midnight (now w) <= created_at self ->
  (forall row, In row (expenses w) -> 0 <= amount row) ->
  amount self <= get_monthly_submitted_amount w user.
Proof.
  unfold get_monthly_submitted_amount. cbv zeta.
  generalize (replace_day1_midnight (now w)) as month_start.
  intros month_start.
  induction (expenses w) as [ | row rest IH]; intros Hin Howner Hcreated Hpos.
  - destruct Hin.
  - assert (Hrest : 0 <= fold_right Z.add 0
              (map amount
                 (filter (fun row0 => (User.id (employee row0) =? User.id user)
                                      && (created_at row0 >=? month_start)) rest))).
    { clear IH Hin. induction rest as [ | r rest' IHr]; simpl; [ lia | ].
      assert (Hr : 0 <= amount r) by (apply Hpos; right; left; reflexivity).
      assert (Hrest' : forall row0, In row0 (row :: rest') -> 0 <= amount row0).
      { intros row0 [<- | H0]; apply Hpos; [ left | right; right ]; trivial. }
      specialize (IHr Hrest').
      destruct ((User.id (employee r) =? User.id user)
                && (created_at r >=? month_start)); simpl; lia. }
    simpl. destruct Hin as [-> | Hin].
    + rewrite Howner, Z.eqb_refl.
      replace (created_at self >=? month_start) with true
        by (symmetry; rewrite Z.geb_leb; apply Z.leb_le; exact Hcreated).
      simpl. lia.
    + assert (Hrow : 0 <= amount row) by (apply Hpos; left; reflexivity).
      assert (IH' := IH Hin Howner Hcreated
                       (fun r Hr => Hpos r (or_intror Hr))).
      destruct ((User.id (employee row) =? User.id user)
                && (created_at row >=? month_start)); simpl; lia.
Qed.

(** Past the owner and receipt checks, [submit] raises the monthly limit
    error exactly when the monthly total plus the amount exceeds the limit. *)
Lemma submit_monthly_limit w user self :
  state self = DRAFT ->
  User.id user = User.id (employee self) ->
  (amount self >? EXPENSE_RULES.MAX_AMOUNT_WITHOUT_RECEIPT) && negb (receipts_exists w self)
    = false ->
  (submit w user self = (self, inl (ValidationError Monthly_submission_limit_exceeded))
   <-> get_monthly_submitted_amount w user + amount self
       > User.get_monthly_expense_limit user).
Proof.
  intros Hstate Howner Hreceipts.
  unfold submit, _validate_submission_rules. unfold_monad. cbv zeta.
  rewrite Hstate, Howner, Z.eqb_refl.
  cbn [existsb ExpenseState_eqb orb negb]. cbv beta iota.
  assert (Hgt : forall a b, (a >? b) = true <-> a > b).
  { intros a b. rewrite Z.gtb_ltb, Z.ltb_lt. lia. }
  rewrite <- Hgt.
  destruct (amount self >? EXPENSE_RULES.MAX_AMOUNT_WITHOUT_RECEIPT);
    [ destruct (receipts_exists w self); [ | discriminate Hreceipts ] | ];
    cbn [negb]; cbv beta iota;
    (destruct (get_monthly_submitted_amount w user + amount self
               >? User.get_monthly_expense_limit user); cbv beta iota;
     [ split; reflexivity | ]);
    (split; [ | discriminate ]);
    repeat match goal with
           | |- context [if ?b then _ else _] =>
               destruct b; cbv beta iota; try discriminate
           end.
Qed.

(** C5. The monthly total counts every stored expense of the employee
    created this month, the draft being submitted included, and [submit]
    then adds the draft's amount once more.  [john_employee] has a monthly
    limit of 2000.00 and one expense of 1995.00 submitted this month; the
    stored draft of 5.00 is refused (1995.00 + 5.00 + 5.00 > 2000.00), through
    the method and through the view, although 1995.00 + 5.00 equals the
    limit.  The same draft passes when the table holds only the earlier
    expense. *)
Theorem C5_submit_counts_the_stored_draft_twice :
  let earlier := Seed.submitted 9 199500 TRAVEL in
  let new := Seed.draft 10 500 MEALS in
  let w := Seed.world [earlier; new] in
  User.get_monthly_expense_limit Seed.john_employee = 200000
  /\ get_monthly_submitted_amount (Seed.world [earlier]) Seed.john_employee = 199500
  /\ get_monthly_submitted_amount w Seed.john_employee = 200000
  /\ submit w Seed.john_employee new =
       (new, inl (ValidationError Monthly_submission_limit_exceeded))
  /\ ExpenseViewSet.submit w Seed.john_employee 10 =
       (ExpenseViewSet.HTTP_400_BAD_REQUEST Monthly_submission_limit_exceeded, w)
  /\ snd (submit (Seed.world [earlier]) Seed.john_employee new) = inr tt.
Proof.
  cbv zeta.
  repeat match goal with
         | |- _ /\ _ => split
         end; vm_compute; reflexivity.
Qed.

(** C7. [submit] has no rule on [expense_date], and [clean], run by
    [save], only refuses dates older than 90 days; the test for a future
    date exists in [ExpenseCreateSerializer.validate_expense_date] alone.
    On 2024-03-15 (day 19797) a stored draft dated 2024-03-16 is submitted:
    the method returns normally and the view answers 200 with the expense
    in state submitted.  A draft dated 91 days back passes the method too,
    and is refused only by [clean] when the view saves it. *)
Theorem C7_future_dated_draft_is_submitted :
  let tomorrow := Seed.draft_dated 10 500 MEALS 19798 in
  let old := Seed.draft_dated 11 500 MEALS 19706 in
  let w := Seed.world [tomorrow; old] in
  date_of (now w) = 19797
  /\ ExpenseCreateSerializer.validate_expense_date w 19798 =
       inl ExpenseCreateSerializer.Expense_date_cannot_be_in_the_future
  /\ snd (submit w Seed.john_employee tomorrow) = inr tt
  /\ state (fst (submit w Seed.john_employee tomorrow)) = SUBMITTED
  /\ (exists data w',
        ExpenseViewSet.submit w Seed.john_employee 10 =
          (ExpenseViewSet.HTTP_200_OK data, w')
        /\ state data = SUBMITTED /\ expense_date data = 19798
        /\ In data (expenses w'))
  /\ snd (submit w Seed.john_employee old) = inr tt
  /\ ExpenseViewSet.submit w Seed.john_employee 11 =
       (ExpenseViewSet.HTTP_400_BAD_REQUEST
          Expense_date_cannot_be_older_than_90_days, w).
Proof.
  repeat split; try (vm_compute; reflexivity).
  eexists. eexists. split; [ vm_compute; reflexivity | ].
  repeat split. left; reflexivity.
Qed.

(** ** reject, flag_suspicious, executive_override *)

(** The three methods store whatever reason they are given, the empty one
    included. *)
Lemma reject_stores_reason w user reason self :
  state self = SUBMITTED \/ state self = COMPLIANCE_HOLD ->
  User.can_approve_expenses user = true ->
  reject w user reason self =
    (set_state REJECTED
       (set_rejection_reason reason (set_rejected_at (Some (now w)) self)),
     inr tt).
Proof.
  intros Hstate Hcan. unfold reject. unfold_monad.
  rewrite Hcan. destruct Hstate as [-> | ->]; reflexivity.
Qed.

Lemma flag_suspicious_stores_reason w user reason self :
  User.can_audit_expenses user = true ->
  flag_suspicious w user reason self =
    (set_state COMPLIANCE_HOLD
       (set_flag_reason reason
          (set_flagged_by (Some (User.id user))
             (set_flagged_at (Some (now w)) self))),
     inr tt).
Proof. intros Hcan. unfold flag_suspicious. unfold_monad. rewrite Hcan. reflexivity. Qed.

Lemma executive_override_stores_reason w user reason self :
  User.can_executive_override user = true ->
  executive_override w user reason self =
    (set_state APPROVED
       (set_override_reason reason
          (set_approved_by (Some (User.id user))
             (set_approved_at (Some (now w)) self))),
     inr tt).
Proof.
  intros Hcan. unfold executive_override. unfold_monad. rewrite Hcan. reflexivity.
Qed.

(** A body without a [reason] key is valid for every action. *)
Lemma is_valid_without_reason action :
  ExpenseActionSerializer.is_valid action None = inr None.
Proof. reflexivity. Qed.

(** C8. The three methods take [reason=""] and store whatever they are
    given; the serializer's [validate_reason] refuses an empty [reason], but
    the field is optional, so a body without a [reason] key is valid and the
    view passes [""] on.  An active manager rejects, a compliance user
    flags and a vp overrides a submitted expense with no reason; the
    transition commits and the reason field stays empty.  A body whose
    [reason] is [""] is refused by the serializer, and a given reason is
    stored. *)
Theorem C8_transition_commits_without_a_reason :
  let self := Seed.submitted 10 500 MEALS in
  let w := Seed.world [self] in
  (exists data w',
     ExpenseViewSet.reject w Seed.jane_manager 10 None =
       (ExpenseViewSet.HTTP_200_OK data, w')
     /\ state data = REJECTED /\ rejection_reason data = ""
     /\ In data (expenses w'))
  /\ (exists data w',
        ExpenseViewSet.flag_suspicious w Seed.sarah_compliance 10 None =
          (ExpenseViewSet.HTTP_200_OK data, w')
        /\ state data = COMPLIANCE_HOLD /\ flag_reason data = ""
        /\ In data (expenses w'))
  /\ (exists data w',
        ExpenseViewSet.executive_override w Seed.david_vp 10 None =
          (ExpenseViewSet.HTTP_200_OK data, w')
        /\ state data = APPROVED /\ override_reason data = ""
        /\ In data (expenses w'))
  /\ reject w Seed.jane_manager "" self =
       (set_state REJECTED
          (set_rejection_reason "" (set_rejected_at (Some (now w)) self)),
        inr tt)
  /\ ExpenseViewSet.reject w Seed.jane_manager 10 (Some "") =
       (ExpenseViewSet.HTTP_400_BAD_REQUEST_serializer
          [ExpenseActionSerializer.Reason_is_required_for_action "reject"], w)
  /\ rejection_reason
       (fst (reject w Seed.jane_manager "Not a business expense" self)) =
     "Not a business expense".
Proof.
  cbv zeta.
  repeat match goal with
         | |- _ /\ _ => split
         end;
    try (vm_compute; reflexivity);
    (eexists; eexists; split; [ vm_compute; reflexivity | ];
     repeat match goal with
            | |- _ /\ _ => split
            end;
     try reflexivity; left; reflexivity).
Qed.

(** * Further properties of the workflow *)

(** ** A request either returns normally or changes nothing *)

Lemma call_outcome w r self :
  if permitted w r self
  then call w r self = (written w r self, inr tt)
  else exists exc, call w r self = (self, inl exc).
Proof.
  unfold permitted, written, call, is_user.
  destruct (req_transition r);
    unfold submit, approve, reject, withdraw, process_payment, flag_suspicious,
      executive_override, _validate_submission_rules, _validate_approval_rules,
      _validate_payment_processing_rules, _has_payment_duplicate;
    unfold_monad; cbv zeta.
  - (* submit *)
    destruct (state self); cbn [existsb ExpenseState_eqb orb andb];
      try (eexists; reflexivity).
    destruct (User.id (req_user r) =? User.id (employee self));
      cbn [negb andb]; cbv beta iota; [ | eexists; reflexivity ].
    destruct (amount self >? EXPENSE_RULES.MAX_AMOUNT_WITHOUT_RECEIPT);
      cbn [negb orb andb]; cbv beta iota;
      [ destruct (receipts_exists w self); cbn [negb andb]; cbv beta iota;
        [ | eexists; reflexivity ] | ];
      (destruct (get_monthly_submitted_amount w (req_user r) + amount self
                 >? User.get_monthly_expense_limit (req_user r));
       cbn [negb andb]; cbv beta iota; [ eexists; reflexivity | ]);
      (destruct (_is_vendor_blacklisted self); cbn [negb andb]; cbv beta iota;
       [ eexists; reflexivity | ]);
      (destruct (_is_duplicate_expense w self); cbn [negb andb]; cbv beta iota;
       [ eexists; reflexivity | reflexivity ]).
  - (* approve *)
    destruct (state self); cbn [existsb ExpenseState_eqb orb andb];
      try (eexists; reflexivity).
    destruct (User.can_approve_expenses (req_user r)); cbn [negb andb];
      cbv beta iota; [ | eexists; reflexivity ].
    destruct (Role_eqb (User.role (req_user r)) MANAGER); cbn [negb orb andb];
      cbv beta iota;
      [ destruct (manager self) as [m | ]; cbv beta iota;
        [ destruct (m =? User.id (req_user r)); cbn [negb andb]; cbv beta iota;
          [ | eexists; reflexivity ]
        | eexists; reflexivity ]
      | ];
      (destruct (User.can_approve_amount (req_user r) (amount self));
       cbn [negb andb]; cbv beta iota; [ | eexists; reflexivity ]);
      (destruct (amount self >? _get_remaining_department_budget self);
       cbn [negb andb]; cbv beta iota; [ eexists; reflexivity | ]);
      (destruct (ExpenseCategory_eqb (expense_category self) ENTERTAINMENT
                 && (amount self >? EXPENSE_RULES.ENTERTAINMENT_REQUIRES_VP)
                 && negb (User.is_vp (req_user r))
                 && negb (User.is_cfo (req_user r)));
       cbn [negb]; cbv beta iota; [ eexists; reflexivity | reflexivity ]).
  - (* reject *)
    destruct (state self); cbn [existsb ExpenseState_eqb orb andb];
      try (eexists; reflexivity);
      (destruct (User.can_approve_expenses (req_user r)); cbn [negb];
       cbv beta iota; [ reflexivity | eexists; reflexivity ]).
  - (* withdraw *)
    destruct (state self); cbn [existsb ExpenseState_eqb orb andb];
      try (eexists; reflexivity).
    destruct (User.id (req_user r) =? User.id (employee self));
      cbn [negb]; cbv beta iota; [ reflexivity | eexists; reflexivity ].
  - (* process_payment *)
    destruct (state self); cbn [existsb ExpenseState_eqb orb andb];
      try (eexists; reflexivity).
    destruct (User.can_process_payments (req_user r)); cbn [negb];
      cbv beta iota; [ reflexivity | eexists; reflexivity ].
  - (* flag_suspicious *)
    destruct (User.can_audit_expenses (req_user r)); cbn [negb];
      cbv beta iota; [ reflexivity | eexists; reflexivity ].
  - (* executive_override *)
    destruct (User.can_executive_override (req_user r)); cbn [negb];
      cbv beta iota; [ reflexivity | eexists; reflexivity ].
Qed.

Lemma call_cases w r self :
  call w r self = (written w r self, inr tt) /\ permitted w r self = true
  \/ (exists exc, call w r self = (self, inl exc)) /\ permitted w r self = false.
Proof.
  pose proof (call_outcome w r self) as H.
  destruct (permitted w r self); [ left | right ]; split; auto.
Qed.

(** A property of the instance that every normal return keeps is kept by
    every sequence of requests. *)
Lemma run_invariant (P : Expense.t -> Prop) :
  (forall w r self, P self -> permitted w r self = true -> P (written w r self)) ->
  forall requests self, P self -> P (run requests self).
Proof.
  intros Hstep requests.
  induction requests as [ | [w r] rest IH]; intros self HP; simpl.
  - exact HP.
  - apply IH.
    destruct (call_cases w r self) as [[Hcall Hperm] | [[exc Hcall] _]];
      rewrite Hcall; simpl.
    + apply Hstep; assumption.
    + exact HP.
Qed.

(** ** What no transition writes *)

(** X1. Whatever requests are played against an expense, by whomever, the
    fields that describe the expense (primary key, employee, amount,
    category, currency, date, vendor, department, description) and its
    [created_at] and [updated_at] are what they were. *)
Theorem X1_requests_never_rewrite_the_expense :
  forall (requests : list (World * Request)) (self : Expense.t),
    same_expense self (run requests self).
Proof.
  intros requests self.
  apply (run_invariant (same_expense self)).
  - intros w r e He _. unfold same_expense in *.
    unfold written. destruct (req_transition r); cbn; exact He.
  - unfold same_expense. repeat split.
Qed.

(** ** Life cycle *)

Lemma edge_decided s s' : edge s s' -> decided s -> decided s'.
Proof.
  intros [tr s0 Hfrom] [Hd Hs].
  destruct tr, s0; simpl in *; try discriminate; try congruence;
    split; discriminate.
Qed.

(** X2. An expense that has left draft and submitted (approved, on hold,
    rejected or paid) is never a draft or submitted again, whatever requests
    follow: it cannot be withdrawn or submitted a second time. *)
Theorem X2_decided_expense_never_returns_to_intake :
  forall (requests : list (World * Request)) (self : Expense.t),
    decided (state self) -> decided (state (run requests self)).
Proof.
  intros requests self Hd.
  pose proof (run_path requests self) as Hpath.
  induction Hpath as [ s | s1 s2 s3 Hedge Hpath IH ].
  - exact Hd.
  - apply IH. eapply edge_decided; eassumption.
Qed.

Lemma X2_witness :
  decided (state (run
    [(Seed.world [],
      {| req_transition := t_withdraw; req_user := Seed.john_employee;
         req_reason := "" |});
     (Seed.world [],
      {| req_transition := t_flag_suspicious; req_user := Seed.sarah_compliance;
         req_reason := "odd vendor" |})]
    (set_state REJECTED (Seed.submitted 10 500 MEALS)))).
Proof.
  apply X2_decided_expense_never_returns_to_intake.
  split; discriminate.
Defined.

(** ** Who can make a transition happen *)

(** X3. A request returns normally only for an actor its method admits:
    [submit] and [withdraw] for the owner of the expense; [approve] and
    [reject] for an active manager, vp or cfo, and [approve] moreover only
    within the actor's approval limit and, for a manager, on an expense
    assigned to that manager; [process_payment] for an active finance user;
    [flag_suspicious] for an active compliance user; [executive_override]
    for an active vp or cfo.  In particular an actor who is not an active
    approver can only submit or withdraw. *)
Theorem X3_normal_return_needs_the_actor_its_method_admits :
  forall (w : World) (r : Request) (self self' : Expense.t),
    call w r self = (self', inr tt) ->
    let user := req_user r in
    match req_transition r with
    | t_submit | t_withdraw => User.id user = User.id (employee self)
    | t_approve =>
        (User.role user = MANAGER \/ User.role user = VP \/ User.role user = CFO)
        /\ User.is_active_approver user = true
        /\ amount self <= User.get_approval_limit user
        /\ (User.role user = MANAGER -> manager self = Some (User.id user))
    | t_reject =>
        (User.role user = MANAGER \/ User.role user = VP \/ User.role user = CFO)
        /\ User.is_active_approver user = true
    | t_process_payment =>
        User.role user = FINANCE /\ User.is_active_approver user = true
    | t_flag_suspicious =>
        User.role user = COMPLIANCE /\ User.is_active_approver user = true
    | t_executive_override =>
        (User.role user = VP \/ User.role user = CFO)
        /\ User.is_active_approver user = true
    end
    /\ (User.is_active_approver user = false ->
        req_transition r = t_submit \/ req_transition r = t_withdraw).
Proof.
  intros w r self self' Hcall user.
  destruct (call_cases w r self) as [[_ Hperm] | [[exc Hfail] _]];
    [ | rewrite Hfail in Hcall; discriminate ].
  clear Hcall. unfold permitted in Hperm. fold user in Hperm.
  unfold User.can_approve_expenses, User.can_process_payments,
    User.can_audit_expenses, User.can_executive_override,
    User.can_approve_amount, is_user in Hperm.
  destruct (req_transition r); cbv beta iota;
    repeat match goal with
           | H : _ && _ = true |- _ => apply andb_true_iff in H; destruct H
           end.
  - split; [ apply Z.eqb_eq; assumption | intros _; left; reflexivity ].
  - split; [ | intros Hin; congruence ].
    repeat split.
    + destruct (User.role user); try discriminate; auto.
    + assumption.
    + match goal with
      | H : (User.get_approval_limit user >=? amount self) = true |- _ =>
          rewrite Z.geb_leb in H; apply Z.leb_le in H; exact H
      end.
    + intros Hrole.
      match goal with
      | H : negb (Role_eqb (User.role user) MANAGER) || _ = true |- _ =>
          rewrite Hrole in H; cbn [Role_eqb negb orb] in H;
          destruct (manager self) as [m | ]; [ | discriminate H ];
          apply Z.eqb_eq in H; subst m; reflexivity
      end.
  - split; [ | intros Hin; congruence ].
    split; [ | assumption ].
    destruct (User.role user); try discriminate; auto.
  - split; [ apply Z.eqb_eq; assumption | intros _; right; reflexivity ].
  - split; [ | intros Hin; congruence ].
    split; [ | assumption ].
    destruct (User.role user); try discriminate; reflexivity.
  - split; [ | intros Hin; congruence ].
    split; [ | assumption ].
    destruct (User.role user); try discriminate; reflexivity.
  - split; [ | intros Hin; congruence ].
    split; [ | assumption ].
    destruct (User.role user); try discriminate; auto.
Qed.

Lemma X3_witness :
  User.role Seed.jane_manager = MANAGER
  /\ amount (Seed.submitted 10 500 MEALS) <= User.get_approval_limit Seed.jane_manager.
Proof.
  pose (r := {| req_transition := t_approve; req_user := Seed.jane_manager;
                req_reason := "" |}).
  assert (Hcall : call (Seed.world []) r (Seed.submitted 10 500 MEALS)
                  = (written (Seed.world []) r (Seed.submitted 10 500 MEALS), inr tt))
    by (vm_compute; reflexivity).
  pose proof (X3_normal_return_needs_the_actor_its_method_admits
                (Seed.world []) r (Seed.submitted 10 500 MEALS) _ Hcall) as H.
  cbn [r req_transition req_user] in H. destruct H as [(_ & _ & Hlimit & _) _].
  split; [ reflexivity | exact Hlimit ].
Defined.

(** ** The record of each state *)

(** X4. Every sequence of requests keeps the record of the state the
    expense is in: a draft has no [submitted_at] and no assigned manager,
    finance or compliance user; a submitted expense has [submitted_at]; an
    approved one [approved_at] and [approved_by]; one on hold [flagged_at]
    and [flagged_by]; a rejected one [rejected_at]; a paid one
    [processed_at], [processed_by] and payment details that carry the
    amount, vendor and currency of the expense. *)
Theorem X4_requests_keep_the_record_of_the_state :
  forall (requests : list (World * Request)) (self : Expense.t),
    recorded self -> recorded (run requests self).
Proof.
  intros requests self.
  apply (run_invariant recorded).
  intros w r e _ _. unfold recorded, written.
  destruct (req_transition r); cbn;
    repeat split; try discriminate.
  eexists. repeat split.
Qed.

Lemma X4_witness :
  recorded (run
    [(Seed.world [Seed.draft 10 500 MEALS],
      {| req_transition := t_submit; req_user := Seed.john_employee;
         req_reason := "" |});
     (Seed.world [],
      {| req_transition := t_approve; req_user := Seed.jane_manager;
         req_reason := "" |});
     (Seed.world [],
      {| req_transition := t_process_payment; req_user := Seed.mike_finance;
         req_reason := "" |})]
    (Seed.draft 10 500 MEALS)).
Proof.
  apply X4_requests_keep_the_record_of_the_state.
  cbn. repeat split.
Defined.

(** ** submit followed by withdraw *)

(** X5. Withdrawing undoes submitting: when [submit] returns normally on a
    draft that has no submission data, [withdraw] by the same user then
    returns normally and gives back the draft, field for field. *)
Theorem X5_withdraw_undoes_submit :
  forall (w : World) (user : User.t) (self self' : Expense.t),
    submitted_at self = None -> manager self = None ->
    finance_user self = None -> compliance_user self = None ->
    submit w user self = (self', inr tt) ->
    withdraw user self' = (self, inr tt).
Proof.
  intros w user self self' Hs Hm Hf Hc Hsubmit.
  pose (r := {| req_transition := t_submit; req_user := user; req_reason := "" |}).
  destruct (call_cases w r self) as [[Hcall Hperm] | [[exc Hfail] _]];
    unfold call in *; cbn [req_transition req_user r] in *;
    [ | rewrite Hfail in Hsubmit; discriminate ].
  rewrite Hcall in Hsubmit. inversion Hsubmit as [Hself']. clear Hsubmit Hcall.
  unfold permitted in Hperm. cbn [req_transition req_user r] in Hperm.
  repeat match goal with
         | H : _ && _ = true |- _ => apply andb_true_iff in H; destruct H
         end.
  assert (Hstate : state self = DRAFT)
    by (destruct (state self); try discriminate; reflexivity).
  unfold written. cbn [req_transition req_user r].
  unfold withdraw. unfold_monad. cbn.
  match goal with
  | H : (User.id user =? User.id (employee self)) = true |- _ => rewrite H
  end.
  cbn. f_equal.
  destruct self; cbn in *; subst; reflexivity.
Qed.

Lemma X5_witness :
  let w := Seed.world [Seed.draft 10 500 MEALS] in
  withdraw Seed.john_employee
    (fst (submit w Seed.john_employee (Seed.draft 10 500 MEALS)))
  = (Seed.draft 10 500 MEALS, inr tt).
Proof.
  intros w.
  apply (X5_withdraw_undoes_submit w Seed.john_employee
           (Seed.draft 10 500 MEALS)); reflexivity.
Defined.

(** ** Vendors and duplicates *)

Lemma prefix_spec (s1 s2 : string) :
  String.prefix s1 s2 = true <-> exists post, s2 = (s1 ++ post)%string.
Proof.
  revert s2. induction s1 as [ | c s1 IH]; intros s2.
  - split; [ intros _; exists s2; reflexivity | ].
    intros _. destruct s2; reflexivity.
  - destruct s2 as [ | d s2]; simpl.
    + split; [ discriminate | intros [post H]; discriminate ].
    + destruct (ascii_dec c d) as [-> | Hne].
      * rewrite IH. split; intros [post H]; exists post.
        -- rewrite H; reflexivity.
        -- inversion H; reflexivity.
      * split; [ discriminate | intros [post H]; inversion H; congruence ].
Qed.

Lemma contains_spec (needle hay : string) :
  contains needle hay = true
  <-> exists pre post, hay = (pre ++ needle ++ post)%string.
Proof.
  induction hay as [ | c hay IH]; cbn [contains].
  - rewrite orb_false_r, prefix_spec. split.
    + intros [post H]. exists "", post. exact H.
    + intros [pre [post H]]. destruct pre; [ exists post; exact H | discriminate ].
  - rewrite orb_true_iff, prefix_spec, IH. split.
    + intros [[post H] | [pre [post H]]].
      * exists "", post. exact H.
      * exists (String c pre), post. simpl. rewrite H. reflexivity.
    + intros [pre [post H]]. destruct pre as [ | d pre]; simpl in H.
      * left. exists post. exact H.
      * right. inversion H. exists pre, post. reflexivity.
Qed.

Lemma submit_returns_permitted w user self self' :
  submit w user self = (self', inr tt) ->
  permitted w {| req_transition := t_submit; req_user := user; req_reason := "" |}
    self = true.
Proof.
  intros H.
  destruct (call_cases w {| req_transition := t_submit; req_user := user;
                            req_reason := "" |} self)
    as [[_ Hperm] | [[exc Hfail] _]]; [ exact Hperm | ].
  unfold call in Hfail. cbn in Hfail. rewrite Hfail in H. discriminate.
Qed.

(** X6. A vendor is blacklisted exactly when its id is one of the three
    listed names or has ["_BLOCKED"] somewhere inside it (an empty id never
    is), and [submit] never returns normally for an expense of a blacklisted
    vendor, whoever calls it and whatever the database holds. *)
Theorem X6_blacklisted_vendor_is_never_submitted :
  forall (self : Expense.t),
    (_is_vendor_blacklisted self = true
     <-> vendor_id self = "VENDOR_BLACKLISTED"
         \/ vendor_id self = "SUSPICIOUS_CORP"
         \/ vendor_id self = "FRAUD_COMPANY"
         \/ exists pre post, vendor_id self = (pre ++ "_BLOCKED" ++ post)%string)
    /\ (_is_vendor_blacklisted self = true ->
        forall w user self', submit w user self <> (self', inr tt)).
Proof.
  intros self. split.
  - unfold _is_vendor_blacklisted. cbn [existsb].
    rewrite orb_false_r, !orb_true_iff, andb_true_iff, !String.eqb_eq,
      contains_spec.
    split.
    + intros [[H | [H | H]] | [_ H]]; auto.
    + intros [H | [H | [H | H]]]; auto.
      right. split; [ | exact H ].
      destruct H as [pre [post H]]. rewrite H.
      destruct pre; reflexivity.
  - intros Hblack w user self' Hsubmit.
    apply submit_returns_permitted in Hsubmit.
    unfold permitted in Hsubmit. cbn [req_transition] in Hsubmit.
    rewrite Hblack in Hsubmit. cbn [negb] in Hsubmit.
    rewrite andb_false_r in Hsubmit. discriminate.
Qed.

(** X7. An expense is a duplicate exactly when the table holds another row
    (a different primary key) of the same employee with the same vendor,
    amount and date; the row of the expense itself never counts.  [submit]
    never returns normally for a duplicate, so of two such stored drafts
    neither can be submitted. *)
Theorem X7_duplicate_expense_is_never_submitted :
  forall (w : World) (self : Expense.t),
    (_is_duplicate_expense w self = true
     <-> exists row,
           In row (expenses w) /\ id row <> id self
           /\ User.id (employee row) = User.id (employee self)
           /\ vendor_id row = vendor_id self
           /\ amount row = amount self
           /\ expense_date row = expense_date self)
    /\ (_is_duplicate_expense w self = true ->
        forall user self', submit w user self <> (self', inr tt)).
Proof.
  intros w self. split.
  - unfold _is_duplicate_expense. rewrite existsb_exists. split.
    + intros [row [Hin Hid]]. apply filter_In in Hin. destruct Hin as [Hin Hkey].
      repeat match goal with
             | H : _ && _ = true |- _ => apply andb_true_iff in H; destruct H
             end.
      exists row. repeat split.
      * exact Hin.
      * apply Z.eqb_neq. apply negb_true_iff. exact Hid.
      * apply Z.eqb_eq; assumption.
      * apply String.eqb_eq; assumption.
      * apply Z.eqb_eq; assumption.
      * apply Z.eqb_eq; assumption.
    + intros [row (Hin & Hid & He & Hv & Ha & Hd)].
      exists row. split.
      * apply filter_In. split; [ exact Hin | ].
        rewrite He, Hv, Ha, Hd, !Z.eqb_refl, String.eqb_refl. reflexivity.
      * apply negb_true_iff. apply Z.eqb_neq. exact Hid.
  - intros Hdup user self' Hsubmit.
    apply submit_returns_permitted in Hsubmit.
    unfold permitted in Hsubmit. cbn [req_transition] in Hsubmit.
    rewrite Hdup in Hsubmit. cbn [negb] in Hsubmit.
    rewrite andb_false_r in Hsubmit. discriminate.
Qed.

(** ** Budgets *)

Lemma remaining_department_budget_at_most (self : Expense.t) :
  _get_remaining_department_budget self <= 7500000.
Proof.
  unfold _get_remaining_department_budget. cbn [find fst snd].
  repeat match goal with
         | |- context [if String.eqb ?a ?b then _ else _] =>
             destruct (String.eqb a b)
         end; cbn [snd]; lia.
Qed.

(** X8. The department budget is a fixed ceiling between 15000.00 and
    75000.00, and 30000.00 for every department that is not one of the five
    listed names.  [approve] never returns normally for an amount above the
    ceiling, so never for an amount above 75000.00, whatever the approval
    limit of the actor. *)
Theorem X8_approve_never_exceeds_department_budget :
  forall (self : Expense.t),
    1500000 <= _get_remaining_department_budget self <= 7500000
    /\ (~ In (department self) ["Engineering"; "Marketing"; "Sales"; "Finance"; "HR"] ->
        _get_remaining_department_budget self = 3000000)
    /\ (forall w user self',
          approve w user self = (self', inr tt) ->
          amount self <= _get_remaining_department_budget self
          /\ amount self <= 7500000).
Proof.
  intros self. split; [ | split ].
  - split; [ apply remaining_department_budget_at_least
           | apply remaining_department_budget_at_most ].
  - intros Hnot. unfold _get_remaining_department_budget. cbn [find fst snd].
    repeat match goal with
           | |- context [if String.eqb ?a ?b then _ else _] =>
               destruct (String.eqb a b) eqn:?
           end; try reflexivity;
      exfalso; apply Hnot;
      match goal with
      | H : String.eqb _ _ = true |- _ => apply String.eqb_eq in H; rewrite <- H
      end; simpl; auto 6.
  - intros w user self' Happrove.
    apply approve_returns in Happrove.
    destruct Happrove as (_ & _ & _ & _ & Hbudget & _).
    rewrite Z.gtb_ltb in Hbudget. apply Z.ltb_ge in Hbudget.
    pose proof (remaining_department_budget_at_most self). lia.
Qed.

(** ** The [can_*] fields of the detail serializer *)

Lemma call_returns_iff w r self :
  (exists self', call w r self = (self', inr tt)) <-> permitted w r self = true.
Proof.
  destruct (call_cases w r self) as [[Hcall Hperm] | [[exc Hfail] Hperm]].
  - split; [ intros _; exact Hperm | intros _; eexists; exact Hcall ].
  - split; [ intros [self' H]; rewrite Hfail in H; discriminate
           | rewrite Hperm; discriminate ].
Qed.

(** X9. For an authenticated user the fields [can_reject], [can_withdraw],
    [can_process_payment], [can_flag] and [can_override] are exact: each is
    true exactly when the corresponding method, called by that user on that
    expense, returns normally (with any reason).  Without an authenticated
    user every field is false. *)
Theorem X9_can_fields_match_the_methods :
  forall (w : World) (user : User.t) (reason : string) (obj : Expense.t),
    (ExpenseDetailSerializer.get_can_reject (Some user) obj = true
     <-> exists obj', reject w user reason obj = (obj', inr tt))
    /\ (ExpenseDetailSerializer.get_can_withdraw (Some user) obj = true
        <-> exists obj', withdraw user obj = (obj', inr tt))
    /\ (ExpenseDetailSerializer.get_can_process_payment (Some user) obj = true
        <-> exists obj', process_payment w user obj = (obj', inr tt))
    /\ (ExpenseDetailSerializer.get_can_flag (Some user) obj = true
        <-> exists obj', flag_suspicious w user reason obj = (obj', inr tt))
    /\ (ExpenseDetailSerializer.get_can_override (Some user) obj = true
        <-> exists obj', executive_override w user reason obj = (obj', inr tt))
    /\ ExpenseDetailSerializer.get_can_submit None obj = false
    /\ ExpenseDetailSerializer.get_can_approve None obj = false
    /\ ExpenseDetailSerializer.get_can_reject None obj = false
    /\ ExpenseDetailSerializer.get_can_withdraw None obj = false
    /\ ExpenseDetailSerializer.get_can_process_payment None obj = false
    /\ ExpenseDetailSerializer.get_can_flag None obj = false
    /\ ExpenseDetailSerializer.get_can_override None obj = false.
Proof.
  intros w user reason obj.
  pose proof (fun tr => call_returns_iff w
                {| req_transition := tr; req_user := user; req_reason := reason |}
                obj) as H.
  unfold call, permitted in H. cbn [req_transition req_user req_reason] in H.
  repeat split; try reflexivity.
  - intros Hcan. apply (H t_reject). exact Hcan.
  - intros Hret. apply (H t_reject) in Hret. exact Hret.
  - intros Hcan. apply (H t_withdraw).
    unfold ExpenseDetailSerializer.get_can_withdraw, is_submitted in Hcan.
    rewrite Z.eqb_sym. exact Hcan.
  - intros Hret. apply (H t_withdraw) in Hret.
    unfold ExpenseDetailSerializer.get_can_withdraw, is_submitted.
    rewrite Z.eqb_sym. exact Hret.
  - intros Hcan. apply (H t_process_payment). exact Hcan.
  - intros Hret. apply (H t_process_payment) in Hret. exact Hret.
  - intros Hcan. apply (H t_flag_suspicious). exact Hcan.
  - intros Hret. apply (H t_flag_suspicious) in Hret. exact Hret.
  - intros Hcan. apply (H t_executive_override). exact Hcan.
  - intros Hret. apply (H t_executive_override) in Hret. exact Hret.
Qed.

(** X10. [can_submit] and [can_approve] are necessary for the methods and
    cover their authorization: when [submit] or [approve] returns normally
    the field is true; when [can_submit] is true, [submit] raises at most a
    business rule of submission, and when [can_approve] is true, [approve]
    raises at most the budget or the entertainment rule, in both cases
    leaving the expense unchanged. *)
Theorem X10_can_submit_and_can_approve_cover_authorization :
  forall (w : World) (user : User.t) (obj : Expense.t),
    ((exists obj', submit w user obj = (obj', inr tt)) ->
     ExpenseDetailSerializer.get_can_submit (Some user) obj = true)
    /\ ((exists obj', approve w user obj = (obj', inr tt)) ->
        ExpenseDetailSerializer.get_can_approve (Some user) obj = true)
    /\ (ExpenseDetailSerializer.get_can_submit (Some user) obj = true ->
        (exists obj', submit w user obj = (obj', inr tt))
        \/ exists msg,
             submit w user obj = (obj, inl (ValidationError msg))
             /\ In msg [Receipts_required_for_amounts_over_25;
                        Monthly_submission_limit_exceeded;
                        Vendor_is_currently_under_investigation;
                        Potential_duplicate_expense_detected])
    /\ (ExpenseDetailSerializer.get_can_approve (Some user) obj = true ->
        (exists obj', approve w user obj = (obj', inr tt))
        \/ exists msg,
             approve w user obj = (obj, inl (ValidationError msg))
             /\ In msg [Insufficient_departmental_budget;
                        Entertainment_expenses_over_200_require_VP_approval]).
Proof.
  intros w user obj.
  pose proof (fun tr => call_returns_iff w
                {| req_transition := tr; req_user := user; req_reason := "" |}
                obj) as H.
  unfold call, permitted in H. cbn [req_transition req_user req_reason] in H.
  split; [ | split; [ | split ] ].
  - intros Hret. apply (H t_submit) in Hret.
    repeat match goal with
           | H : _ && _ = true |- _ => apply andb_true_iff in H; destruct H
           end.
    unfold ExpenseDetailSerializer.get_can_submit, is_draft.
    rewrite Z.eqb_sym. apply andb_true_iff. split; assumption.
  - intros Hret. apply (H t_approve) in Hret. clear H.
    rewrite !andb_true_iff in Hret.
    destruct Hret as [[[[[Hs Hc] Hm] Hl] Hb] He].
    unfold ExpenseDetailSerializer.get_can_approve, is_submitted.
    rewrite Hs, Hc, Hl, andb_true_r. cbn [andb].
    unfold User.can_approve_expenses in Hc.
    unfold User.is_manager, User.is_vp, User.is_cfo, is_user in *.
    destruct (User.role user); cbn in Hm, Hc |- *;
      try discriminate; try reflexivity.
    rewrite Hm. reflexivity.
  - unfold ExpenseDetailSerializer.get_can_submit, is_draft. intros Hcan.
    apply andb_true_iff in Hcan. destruct Hcan as [Hstate Howner].
    unfold submit, _validate_submission_rules. unfold_monad. cbv zeta.
    destruct (state obj); try discriminate Hstate.
    cbn [existsb ExpenseState_eqb orb]. rewrite Z.eqb_sym, Howner.
    cbn [negb]. cbv beta iota.
    destruct (amount obj >? EXPENSE_RULES.MAX_AMOUNT_WITHOUT_RECEIPT);
      cbv beta iota;
      [ destruct (receipts_exists w obj); cbn [negb]; cbv beta iota;
        [ | right; eexists; split; [ reflexivity | simpl; auto ] ] | ];
      (destruct (get_monthly_submitted_amount w user + amount obj
                 >? User.get_monthly_expense_limit user); cbv beta iota;
       [ right; eexists; split; [ reflexivity | simpl; auto ] | ]);
      (destruct (_is_vendor_blacklisted obj); cbv beta iota;
       [ right; eexists; split; [ reflexivity | simpl; auto ] | ]);
      (destruct (_is_duplicate_expense w obj); cbv beta iota;
       [ right; eexists; split; [ reflexivity | simpl; auto ]
       | left; eexists; reflexivity ]).
  - unfold ExpenseDetailSerializer.get_can_approve, is_submitted. intros Hcan.
    repeat match goal with
           | H : _ && _ = true |- _ => apply andb_true_iff in H; destruct H
           end.
    assert (Hstate : state obj = SUBMITTED)
      by (destruct (state obj); try discriminate; reflexivity).
    assert (Hmgr : User.role user = MANAGER -> manager obj = Some (User.id user)).
    { intros Hrole.
      match goal with
      | Hm : _ || _ || _ = true |- _ =>
          unfold User.is_manager, User.is_vp, User.is_cfo in Hm;
          rewrite Hrole in Hm; cbn in Hm;
          rewrite !orb_false_r in Hm;
          destruct (manager obj) as [m | ]; [ | discriminate Hm ];
          apply Z.eqb_eq in Hm; subst m; reflexivity
      end. }
    rewrite (approve_permitted w user obj Hstate) by assumption.
    match goal with
    | Hl : User.can_approve_amount user (amount obj) = true |- _ => rewrite Hl
    end.
    cbn [negb].
    destruct (amount obj >? _get_remaining_department_budget obj);
      [ right; eexists; split; [ reflexivity | simpl; auto ] | ].
    destruct (ExpenseCategory_eqb (expense_category obj) ENTERTAINMENT
              && (amount obj >? EXPENSE_RULES.ENTERTAINMENT_REQUIRES_VP)
              && negb (User.is_vp user) && negb (User.is_cfo user));
      [ right; eexists; split; [ reflexivity | simpl; auto ]
      | left; eexists; reflexivity ].
Qed.

(** ** Who sees which expense *)

Lemma get_queryset_filter w user :
  ExpenseViewSet.get_queryset w user
  = filter (ExpenseObjectPermission.has_object_permission user) (expenses w).
Proof.
  unfold ExpenseViewSet.get_queryset,
    ExpenseObjectPermission.has_object_permission, is_user.
  destruct (User.role user); try reflexivity;
    (induction (expenses w) as [ | row rest IH]; [ reflexivity | ];
     simpl; rewrite <- IH; reflexivity).
Qed.

(** X11. The queryset of the expense views is the expense table filtered
    by [ExpenseObjectPermission]: the two statements of the visibility rule
    agree, row for row. *)
Theorem X11_queryset_is_the_table_filtered_by_object_permission :
  forall (w : World) (user : User.t),
    ExpenseViewSet.get_queryset w user
    = filter (ExpenseObjectPermission.has_object_permission user) (expenses w).
Proof. intros w user. apply get_queryset_filter. Qed.

(** X12. A user sees exactly the receipts of the expenses that user sees:
    a receipt is in the queryset of the receipt views exactly when it is
    stored and its expense is in the queryset of the expense views. *)
Theorem X12_receipts_follow_their_expense :
  forall (w : World) (user : User.t) (receipt : Receipt.t),
    In receipt (ReceiptViewSet.get_queryset w user)
    <-> In receipt (receipts w)
        /\ exists row, In row (ExpenseViewSet.get_queryset w user)
                       /\ id row = Receipt.expense receipt.
Proof.
  intros w user receipt.
  assert (Hids :
    forall rows : list Expense.t,
      existsb (Z.eqb (Receipt.expense receipt)) (map id rows) = true
      <-> exists row, In row rows /\ id row = Receipt.expense receipt).
  { intros rows. rewrite existsb_exists. split.
    - intros [pk [Hin Heq]]. apply in_map_iff in Hin.
      destruct Hin as [row [Hid Hin]]. exists row. split; [ exact Hin | ].
      apply Z.eqb_eq in Heq. congruence.
    - intros [row [Hin Hid]]. exists (id row). split.
      + apply in_map. exact Hin.
      + apply Z.eqb_eq. congruence. }
  unfold ReceiptViewSet.get_queryset, ExpenseViewSet.get_queryset, is_user.
  cbv zeta. rewrite filter_In.
  destruct (User.role user); rewrite Hids; reflexivity.
Qed.

Lemma get_object_visible w user pk expense :
  ExpenseViewSet.get_object w user pk = Some expense ->
  In expense (expenses w) /\ id expense = pk
  /\ ExpenseObjectPermission.has_object_permission user expense = true.
Proof.
  unfold ExpenseViewSet.get_object.
  rewrite get_queryset_filter.
  intros H. apply find_some in H. destruct H as [Hin Hid].
  apply filter_In in Hin. destruct Hin as [Hin Hperm].
  apply Z.eqb_eq in Hid. auto.
Qed.

(** X13. A user always sees the expenses they own, whatever their role; a
    user whose role is employee sees no others; and a request for a primary
    key under which the user sees no expense is answered 404 by every
    transition view, with the database untouched. *)
Theorem X13_views_reach_only_visible_expenses :
  forall (w : World) (user : User.t),
    (forall row, In row (expenses w) ->
                 User.id (employee row) = User.id user ->
                 In row (ExpenseViewSet.get_queryset w user))
    /\ (User.role user = EMPLOYEE ->
        forall row, In row (ExpenseViewSet.get_queryset w user) ->
                    User.id (employee row) = User.id user)
    /\ (forall pk data,
          (forall row, In row (expenses w) -> id row = pk ->
                       ExpenseObjectPermission.has_object_permission user row = false) ->
          ExpenseViewSet.submit w user pk = (ExpenseViewSet.HTTP_404_NOT_FOUND, w)
          /\ ExpenseViewSet.approve w user pk = (ExpenseViewSet.HTTP_404_NOT_FOUND, w)
          /\ ExpenseViewSet.reject w user pk data = (ExpenseViewSet.HTTP_404_NOT_FOUND, w)
          /\ ExpenseViewSet.withdraw w user pk = (ExpenseViewSet.HTTP_404_NOT_FOUND, w)
          /\ ExpenseViewSet.process_payment w user pk
             = (ExpenseViewSet.HTTP_404_NOT_FOUND, w)
          /\ ExpenseViewSet.flag_suspicious w user pk data
             = (ExpenseViewSet.HTTP_404_NOT_FOUND, w)
          /\ ExpenseViewSet.executive_override w user pk data
             = (ExpenseViewSet.HTTP_404_NOT_FOUND, w)).
Proof.
  intros w user. split; [ | split ].
  - intros row Hin Howner. rewrite get_queryset_filter.
    apply filter_In. split; [ exact Hin | ].
    unfold ExpenseObjectPermission.has_object_permission.
    rewrite Howner, Z.eqb_refl. destruct (User.role user); reflexivity.
  - intros Hrole row Hin. rewrite get_queryset_filter in Hin.
    apply filter_In in Hin. destruct Hin as [_ Hperm].
    unfold ExpenseObjectPermission.has_object_permission in Hperm.
    rewrite Hrole in Hperm. apply Z.eqb_eq. exact Hperm.
  - intros pk data Hhidden.
    assert (Hnone : ExpenseViewSet.get_object w user pk = None).
    { destruct (ExpenseViewSet.get_object w user pk) as [expense | ] eqn:E;
        [ | reflexivity ].
      apply get_object_visible in E. destruct E as (Hin & Hid & Hperm).
      rewrite (Hhidden expense Hin Hid) in Hperm. discriminate. }
    unfold ExpenseViewSet.submit, ExpenseViewSet.approve, ExpenseViewSet.reject,
      ExpenseViewSet.withdraw, ExpenseViewSet.process_payment,
      ExpenseViewSet.flag_suspicious, ExpenseViewSet.executive_override.
    rewrite Hnone. repeat split.
Qed.

Lemma X13_witness :
  ExpenseViewSet.approve (Seed.world [Seed.submitted 10 500 MEALS])
    Seed.mike_finance 10
  = (ExpenseViewSet.HTTP_404_NOT_FOUND, Seed.world [Seed.submitted 10 500 MEALS]).
Proof.
  refine (proj1 (proj2 (proj2 (proj2
    (X13_views_reach_only_visible_expenses
       (Seed.world [Seed.submitted 10 500 MEALS]) Seed.mike_finance)) 10 None _))).
  intros row [<- | []] _. vm_compute. reflexivity.
Defined.

(** ** save *)

Lemma clean_returns w self self' u :
  clean w self = (self', inr u) ->
  self' = self
  /\ 0 < amount self
  /\ (10 <= String.length (description self))%nat
  /\ date_of (now w) - EXPENSE_RULES.MAX_EXPENSE_AGE_DAYS <= expense_date self.
Proof.
  unfold clean. unfold_monad. cbv zeta.
  destruct (amount self <=? 0) eqn:Ea; cbv beta iota; [ discriminate | ].
  destruct (String.eqb (description self) ""
            || (String.length (description self) <? 10)%nat) eqn:Ed;
    cbv beta iota; [ discriminate | ].
  destruct (expense_date self
            <? date_of (now w) - EXPENSE_RULES.MAX_EXPENSE_AGE_DAYS) eqn:Ex;
    cbv beta iota; [ discriminate | ].
  intros H. inversion H. subst self'. split; [ reflexivity | ].
  apply Z.leb_gt in Ea. apply Z.ltb_ge in Ex.
  apply orb_false_iff in Ed. destruct Ed as [_ Ed].
  apply Nat.ltb_ge in Ed. repeat split; assumption.
Qed.

Lemma save_returns w self self' w' :
  save w self = (self', inr w') ->
  w' = write_row w self'
  /\ id self' = id self /\ amount self' = amount self
  /\ description self' = description self
  /\ expense_date self' = expense_date self
  /\ state self' = state self
  /\ updated_at self' = now w
  /\ 0 < amount self'
  /\ (10 <= String.length (description self'))%nat
  /\ date_of (now w) - EXPENSE_RULES.MAX_EXPENSE_AGE_DAYS <= expense_date self'.
Proof.
  unfold save. unfold_monad.
  destruct (String.eqb (department self) ""); cbv beta iota;
    match goal with
    | |- context [clean w ?x] =>
        destruct (clean w x) as [self2 [exc | u]] eqn:Hclean;
        [ discriminate | ];
        apply clean_returns in Hclean;
        destruct Hclean as (-> & Hpos & Hlen & Hage)
    end;
    cbv beta iota;
    match goal with
    | |- context [negb ?b] => destruct (negb b)
    end;
    cbv beta iota; intros H; inversion H; subst;
    (split; [ reflexivity | ]); cbn; repeat split; assumption.
Qed.

Lemma write_row_rows w saved :
  (forall row, In row (expenses (write_row w saved)) ->
               row = saved \/ In row (expenses w) /\ id row <> id saved)
  /\ In saved (expenses (write_row w saved))
  /\ (forall row, In row (expenses w) -> id row <> id saved ->
                  In row (expenses (write_row w saved)))
  /\ map id (expenses (write_row w saved))
     = (if existsb (fun row => id row =? id saved) (expenses w)
        then map id (expenses w)
        else id saved :: map id (expenses w))
  /\ users (write_row w saved) = users w
  /\ receipts (write_row w saved) = receipts w.
Proof.
  unfold write_row. cbn [expenses users receipts].
  destruct (existsb (fun row => id row =? id saved) (expenses w)) eqn:E.
  - apply existsb_exists in E. destruct E as [old [Hold Hid]].
    repeat split.
    + intros row Hin. apply in_map_iff in Hin. destruct Hin as [r [Hr Hin]].
      destruct (id r =? id saved) eqn:Er.
      * left. symmetry. exact Hr.
      * right. subst row. split; [ exact Hin | apply Z.eqb_neq; exact Er ].
    + apply in_map_iff. exists old. rewrite Hid. split; [ reflexivity | exact Hold ].
    + intros row Hin Hne. apply in_map_iff. exists row.
      apply Z.eqb_neq in Hne. rewrite Hne. split; [ reflexivity | exact Hin ].
    + clear Hold. induction (expenses w) as [ | r rest IH]; [ reflexivity | ].
      simpl. rewrite IH. f_equal.
      destruct (id r =? id saved) eqn:Er; [ | reflexivity ].
      apply Z.eqb_eq in Er. congruence.
  - repeat split.
    + intros row [<- | Hin]; [ left; reflexivity | right ].
      split; [ exact Hin | ].
      intros Heq.
      assert (Hex : existsb (fun r => id r =? id saved) (expenses w) = true).
      { apply existsb_exists. exists row. split; [ exact Hin | ].
        apply Z.eqb_eq. exact Heq. }
      rewrite Hex in E. discriminate.
    + left. reflexivity.
    + intros row Hin _. right. exact Hin.
Qed.

(** X14. When [save] returns normally, the stored instance has passed
    [clean] (positive amount, a description of at least 10 characters, a
    date not older than 90 days) and carries the clock reading as
    [updated_at]; it is in the table, where a lookup by its primary key finds
    it; every row with another primary key is still there and no further
    row appears; users and receipts are untouched. *)
Theorem X14_save_stores_a_clean_instance :
  forall (w w' : World) (self self' : Expense.t),
    save w self = (self', inr w') ->
    0 < amount self'
    /\ (10 <= String.length (description self'))%nat
    /\ date_of (now w) - EXPENSE_RULES.MAX_EXPENSE_AGE_DAYS <= expense_date self'
    /\ updated_at self' = now w
    /\ id self' = id self
    /\ In self' (expenses w')
    /\ find (fun row => id row =? id self) (expenses w') = Some self'
    /\ (forall row, In row (expenses w) -> id row <> id self -> In row (expenses w'))
    /\ (forall row, In row (expenses w') -> row = self' \/ In row (expenses w))
    /\ users w' = users w /\ receipts w' = receipts w.
Proof.
  intros w w' self self' Hsave.
  apply save_returns in Hsave.
  destruct Hsave as (-> & Hid & Ha & Hd & He & Hs & Hu & Hpos & Hlen & Hage).
  destruct (write_row_rows w self') as (Hrows & Hin & Hkeep & Hids & Husers & Hrec).
  repeat split; auto.
  - rewrite <- Hid.
    destruct (find (fun row => id row =? id self') (expenses (write_row w self')))
      as [found | ] eqn:E.
    + apply find_some in E. destruct E as [Hf Hfid].
      apply Hrows in Hf. destruct Hf as [-> | [_ Hne]]; [ reflexivity | ].
      apply Z.eqb_eq in Hfid. contradiction.
    + pose proof (find_none _ _ E self' Hin) as Hn.
      cbv beta in Hn. rewrite Z.eqb_refl in Hn. discriminate.
  - intros row Hr Hne. apply Hkeep; [ exact Hr | congruence ].
  - intros row Hr. apply Hrows in Hr. destruct Hr as [-> | [Hr _]]; auto.
Qed.

Lemma X14_witness :
  0 < amount (fst (save (Seed.world []) (Seed.draft 10 500 MEALS))).
Proof.
  refine (proj1 (X14_save_stores_a_clean_instance (Seed.world []) _
                   (Seed.draft 10 500 MEALS) _ _)).
  vm_compute. reflexivity.
Defined.

Lemma try_save_stored_ok w expense (method : M unit) :
  stored_ok w ->
  stored_ok (snd (ExpenseViewSet.try_save w expense method)).
Proof.
  intros [Hnodup Hrows].
  unfold ExpenseViewSet.try_save, bind.
  destruct (method expense) as [expense1 [exc | u]] eqn:Hm.
  - destruct exc; split; assumption.
  - destruct (save w expense1) as [expense2 [exc | w']] eqn:Hsave.
    + destruct exc; split; assumption.
    + cbn [snd]. apply save_returns in Hsave.
      destruct Hsave as (-> & _ & _ & _ & _ & _ & _ & Hpos & Hlen & _).
      destruct (write_row_rows w expense2) as (Hrows' & _ & _ & Hids & _).
      split.
      * rewrite Hids.
        destruct (existsb (fun row => id row =? id expense2) (expenses w)) eqn:E;
          [ exact Hnodup | ].
        constructor; [ | exact Hnodup ].
        intros Hin. apply in_map_iff in Hin. destruct Hin as [row [Hrid Hin]].
        assert (Hex : existsb (fun r => id r =? id expense2) (expenses w) = true).
        { apply existsb_exists. exists row. split; [ exact Hin | ].
          apply Z.eqb_eq. exact Hrid. }
        rewrite Hex in E. discriminate.
      * intros row Hin. apply Hrows' in Hin.
        destruct Hin as [-> | [Hin _]]; [ split; assumption | apply Hrows; exact Hin ].
Qed.

(** X15. The transition views keep the table sound: if the primary keys
    are unique and every stored expense has a positive amount and a
    description of at least 10 characters, the same holds after any request
    to any of the seven views, whatever its answer. *)
Theorem X15_views_keep_the_table_sound :
  forall (w : World) (user : User.t) (pk : Z) (data : option string),
    stored_ok w ->
    stored_ok (snd (ExpenseViewSet.submit w user pk))
    /\ stored_ok (snd (ExpenseViewSet.approve w user pk))
    /\ stored_ok (snd (ExpenseViewSet.reject w user pk data))
    /\ stored_ok (snd (ExpenseViewSet.withdraw w user pk))
    /\ stored_ok (snd (ExpenseViewSet.process_payment w user pk))
    /\ stored_ok (snd (ExpenseViewSet.flag_suspicious w user pk data))
    /\ stored_ok (snd (ExpenseViewSet.executive_override w user pk data)).
Proof.
  intros w user pk data Hok.
  unfold ExpenseViewSet.submit, ExpenseViewSet.approve, ExpenseViewSet.reject,
    ExpenseViewSet.withdraw, ExpenseViewSet.process_payment,
    ExpenseViewSet.flag_suspicious, ExpenseViewSet.executive_override.
  destruct (ExpenseViewSet.get_object w user pk) as [expense | ];
    repeat match goal with
           | |- _ /\ _ => split
           end;
    try exact Hok;
    repeat match goal with
           | |- context [ExpenseActionSerializer.is_valid ?a ?d] =>
               destruct (ExpenseActionSerializer.is_valid a d)
           | |- context [negb ?b] => destruct b; cbn [negb]
           end;
    first [ apply try_save_stored_ok; exact Hok | exact Hok ].
Qed.

Lemma X15_witness :
  stored_ok (snd (ExpenseViewSet.submit
                    (Seed.world [Seed.draft 10 500 MEALS]) Seed.john_employee 10)).
Proof.
  refine (proj1 (X15_views_keep_the_table_sound
                   (Seed.world [Seed.draft 10 500 MEALS]) Seed.john_employee 10
                   None _)).
  split.
  - cbn. constructor; [ intros [] | constructor ].
  - intros row [<- | []]. split; [ reflexivity | ]. cbn. repeat constructor.
Defined.

(** ** The permission classes *)

(** X16. [ExpenseStatePermission] and the transition decorators agree on
    the source states: for each of the seven actions the permission is
    granted exactly when the state of the expense is a source state of the
    method's transition, the role of the user is one the entry requires, and,
    for [submit] and [withdraw], the user owns the expense.  So a granted
    request never raises [TransitionNotAllowed].  An action that is not a
    transition is always granted. *)
Theorem X16_state_permission_agrees_with_the_decorators :
  forall (user : User.t) (obj : Expense.t),
    let grants := ExpenseStatePermission.has_object_permission in
    let owner := User.id (employee obj) =? User.id user in
    let role_in roles := existsb (Role_eqb (User.role user)) roles in
    grants "submit" user obj
      = table_from t_submit (state obj) && role_in [EMPLOYEE] && owner
    /\ grants "approve" user obj
       = table_from t_approve (state obj) && role_in [MANAGER; VP; CFO]
    /\ grants "reject" user obj
       = table_from t_reject (state obj) && role_in [MANAGER; VP; CFO]
    /\ grants "withdraw" user obj
       = table_from t_withdraw (state obj) && role_in [EMPLOYEE] && owner
    /\ grants "process_payment" user obj
       = table_from t_process_payment (state obj) && role_in [FINANCE]
    /\ grants "flag_suspicious" user obj
       = table_from t_flag_suspicious (state obj) && role_in [COMPLIANCE]
    /\ grants "executive_override" user obj
       = table_from t_executive_override (state obj) && role_in [VP; CFO]
    /\ (forall action,
          ~ In action ["submit"; "approve"; "reject"; "withdraw";
                       "process_payment"; "flag_suspicious";
                       "executive_override"] ->
          grants action user obj = true).
Proof.
  intros user obj grants owner role_in. subst grants owner role_in.
  unfold ExpenseStatePermission.has_object_permission.
  repeat match goal with
         | |- _ /\ _ => split
         end;
    try (cbn [find fst snd String.eqb Ascii.eqb Bool.eqb andb
              ExpenseStatePermission.ALLOWED_TRANSITIONS
              ExpenseStatePermission.from_states
              ExpenseStatePermission.required_roles
              ExpenseStatePermission.owner_only table_from];
         destruct (state obj), (User.role user),
           (User.id (employee obj) =? User.id user); reflexivity).
  intros action Hnot.
  unfold ExpenseStatePermission.ALLOWED_TRANSITIONS. cbn [find fst].
  repeat match goal with
         | |- context [String.eqb ?a action] =>
             destruct (String.eqb a action) eqn:?
         end; try reflexivity;
    exfalso; apply Hnot;
    match goal with
    | H : String.eqb _ action = true |- _ => apply String.eqb_eq in H; rewrite <- H
    end; simpl; auto 8.
Qed.

Lemma passes_submission_rules w user obj :
  BusinessRulePermission._validate_submission_rules w obj user
  = (negb (amount obj >? EXPENSE_RULES.MAX_AMOUNT_WITHOUT_RECEIPT)
     || receipts_exists w obj)
    && negb (get_monthly_submitted_amount w user + amount obj
             >? User.get_monthly_expense_limit user)
    && negb (_is_vendor_blacklisted obj)
    && negb (_is_duplicate_expense w obj).
Proof.
  unfold BusinessRulePermission._validate_submission_rules,
    BusinessRulePermission.passes, _validate_submission_rules.
  unfold_monad. cbv zeta.
  destruct (amount obj >? EXPENSE_RULES.MAX_AMOUNT_WITHOUT_RECEIPT);
    cbn [negb orb andb]; cbv beta iota;
    [ destruct (receipts_exists w obj); cbn [negb andb]; cbv beta iota;
      [ | reflexivity ] | ];
    (destruct (get_monthly_submitted_amount w user + amount obj
               >? User.get_monthly_expense_limit user);
     cbn [negb andb]; cbv beta iota; [ reflexivity | ]);
    (destruct (_is_vendor_blacklisted obj); cbn [negb andb]; cbv beta iota;
     [ reflexivity | ]);
    (destruct (_is_duplicate_expense w obj); reflexivity).
Qed.

Lemma passes_approval_rules user obj :
  BusinessRulePermission._validate_approval_rules obj user
  = negb (amount obj >? _get_remaining_department_budget obj)
    && negb (ExpenseCategory_eqb (expense_category obj) ENTERTAINMENT
             && (amount obj >? EXPENSE_RULES.ENTERTAINMENT_REQUIRES_VP)
             && negb (User.is_vp user) && negb (User.is_cfo user)).
Proof.
  unfold BusinessRulePermission._validate_approval_rules,
    BusinessRulePermission.passes, _validate_approval_rules.
  unfold_monad. cbv zeta.
  destruct (amount obj >? _get_remaining_department_budget obj);
    cbn [negb andb]; cbv beta iota; [ reflexivity | ].
  destruct (ExpenseCategory_eqb (expense_category obj) ENTERTAINMENT
            && (amount obj >? EXPENSE_RULES.ENTERTAINMENT_REQUIRES_VP)
            && negb (User.is_vp user) && negb (User.is_cfo user));
    reflexivity.
Qed.

(** X17. The composite permission classes are sufficient for the model
    methods.  When [ExpenseSubmissionPermission] grants [submit], the
    method returns normally; when [ExpensePaymentPermission] grants
    [process_payment], the method returns normally; when
    [ExpenseApprovalPermission] grants [approve], the method returns normally
    if the amount is within the approval limit of the user, and raises the
    limit error otherwise: the approval limit is the one check of [approve]
    that the permission does not make. *)
Theorem X17_composite_permissions_are_sufficient :
  forall (w : World) (user : User.t) (obj : Expense.t),
    (ExpenseSubmissionPermission.has_object_permission w "submit" user obj = true ->
     exists obj', submit w user obj = (obj', inr tt) /\ state obj' = SUBMITTED)
    /\ (ExpensePaymentPermission.has_object_permission w "process_payment" user obj
        = true ->
        exists obj', process_payment w user obj = (obj', inr tt)
                     /\ state obj' = PAID)
    /\ (ExpenseApprovalPermission.has_object_permission w "approve" user obj = true ->
        (amount obj <= User.get_approval_limit user ->
         exists obj', approve w user obj = (obj', inr tt) /\ state obj' = APPROVED)
        /\ (User.get_approval_limit user < amount obj ->
            approve w user obj
            = (obj, inl (ValidationError
                           (Amount_exceeds_approval_limit (amount obj)))))).
Proof.
  intros w user obj.
  pose proof (fun tr => call_cases w
                {| req_transition := tr; req_user := user; req_reason := "" |}
                obj) as H.
  unfold call, permitted, written in H.
  cbn [req_transition req_user req_reason] in H.
  split; [ | split ].
  - unfold ExpenseSubmissionPermission.has_object_permission,
      CanSubmitExpense.has_object_permission,
      BusinessRulePermission.has_object_permission.
    cbn [forallb String.eqb Ascii.eqb Bool.eqb andb].
    rewrite passes_submission_rules, andb_true_r.
    intros Hperm. rewrite !andb_true_iff in Hperm.
    destruct Hperm as [[Howner Hstate] [_ [[[Hr Hm] Hv] Hd]]].
    destruct (H t_submit) as [[Hcall _] | [_ Hnot]].
    + eexists. split; [ exact Hcall | reflexivity ].
    + rewrite Hstate, (Z.eqb_sym (User.id user)), Howner in Hnot.
      cbn [andb] in Hnot.
      rewrite Hr, Hm, Hv, Hd in Hnot. discriminate.
  - unfold ExpensePaymentPermission.has_object_permission,
      CanProcessPayment.has_object_permission.
    cbn [forallb]. intros Hperm. rewrite !andb_true_iff in Hperm.
    destruct Hperm as [[Hcan Hstate] _].
    destruct (H t_process_payment) as [[Hcall _] | [_ Hnot]].
    + eexists. split; [ exact Hcall | reflexivity ].
    + rewrite Hstate, Hcan in Hnot. discriminate.
  - unfold ExpenseApprovalPermission.has_object_permission,
      CanApproveExpense.has_object_permission,
      BusinessRulePermission.has_object_permission.
    cbn [forallb String.eqb Ascii.eqb Bool.eqb andb].
    rewrite passes_approval_rules, andb_true_r.
    intros Hperm. rewrite !andb_true_iff in Hperm.
    destruct Hperm as [Hcan [_ [Hbudget Hent]]].
    destruct (User.can_approve_expenses user) eqn:Hc; cbn [negb] in Hcan;
      [ | discriminate ].
    destruct (ExpenseState_eqb (state obj) SUBMITTED) eqn:Hs; cbn [negb] in Hcan;
      [ | discriminate ].
    assert (Hstate : state obj = SUBMITTED)
      by (destruct (state obj); try discriminate; reflexivity).
    assert (Hmgr : User.role user = MANAGER -> manager obj = Some (User.id user)).
    { intros Hrole. rewrite Hrole in Hcan. cbn [Role_eqb] in Hcan.
      unfold is_user in Hcan. destruct (manager obj) as [m | ]; [ | discriminate ].
      apply Z.eqb_eq in Hcan. subst m. reflexivity. }
    rewrite (approve_permitted w user obj Hstate Hc Hmgr).
    apply negb_true_iff in Hbudget. apply negb_true_iff in Hent.
    rewrite Hbudget, Hent.
    unfold User.can_approve_amount. split.
    + intros Hlim.
      replace (User.get_approval_limit user >=? amount obj) with true
        by (symmetry; rewrite Z.geb_leb; apply Z.leb_le; exact Hlim).
      eexists. split; reflexivity.
    + intros Hlim.
      replace (User.get_approval_limit user >=? amount obj) with false
        by (symmetry; rewrite Z.geb_leb; apply Z.leb_gt; exact Hlim).
      reflexivity.
Qed.

(** ** Limits of a user *)

Lemma save_fields (user : User.t) :
  User.save user
  = {| User.id := User.id user; User.role := User.role user;
       User.department := User.department user;
       User.manager := User.manager user;
       User.approval_limit :=
         if User.falsy (User.approval_limit user)
         then Some (User.get_default_approval_limit user)
         else User.approval_limit user;
       User.monthly_expense_limit :=
         if User.falsy (User.monthly_expense_limit user)
         then Some (User.get_default_monthly_limit user)
         else User.monthly_expense_limit user;
       User.is_active := User.is_active user;
       User.is_active_approver := User.is_active_approver user |}.
Proof.
  destruct user as [pk role dep mgr al ml act appr].
  unfold User.save. cbv zeta.
  cbn [User.id User.role User.department User.manager User.approval_limit
       User.monthly_expense_limit User.is_active User.is_active_approver].
  unfold User.get_default_monthly_limit, User.get_default_approval_limit.
  destruct (User.falsy al);
    cbn [User.id User.role User.department User.manager User.approval_limit
         User.monthly_expense_limit User.is_active User.is_active_approver];
    destruct (User.falsy ml); reflexivity.
Qed.

Lemma default_monthly_limit_at_least (user : User.t) :
  200000 <= User.get_default_monthly_limit user.
Proof.
  unfold User.get_default_monthly_limit.
  destruct (User.role user); vm_compute; discriminate.
Qed.

(** X18. [User.save] fills in the limits that are unset or zero with the
    defaults of the role and changes nothing else: saving twice is saving
    once; afterwards [approval_limit] is set and [monthly_expense_limit] is
    set and non-zero, at least 2000.00 when it was filled in; a limit that
    was set and non-zero is kept.  An employee whose limit was filled in can
    approve no positive amount. *)
Theorem X18_user_save_fills_in_role_defaults :
  forall (user : User.t),
    let saved := User.save user in
    User.save saved = saved
    /\ User.approval_limit saved <> None
    /\ User.falsy (User.monthly_expense_limit saved) = false
    /\ User.id saved = User.id user /\ User.role saved = User.role user
    /\ User.department saved = User.department user
    /\ User.manager saved = User.manager user
    /\ User.is_active saved = User.is_active user
    /\ User.is_active_approver saved = User.is_active_approver user
    /\ (User.falsy (User.approval_limit user) = false ->
        User.approval_limit saved = User.approval_limit user)
    /\ (User.falsy (User.monthly_expense_limit user) = false ->
        User.monthly_expense_limit saved = User.monthly_expense_limit user)
    /\ (User.falsy (User.approval_limit user) = true ->
        User.get_approval_limit saved = User.get_default_approval_limit user)
    /\ (User.falsy (User.monthly_expense_limit user) = true ->
        User.get_monthly_expense_limit saved = User.get_default_monthly_limit user
        /\ 200000 <= User.get_monthly_expense_limit saved)
    /\ (User.role user = EMPLOYEE ->
        User.falsy (User.approval_limit user) = true ->
        forall amount, 0 < amount -> User.can_approve_amount saved amount = false).
Proof.
  intros user saved.
  pose proof (save_fields user) as Hsaved. fold saved in Hsaved.
  pose proof (default_monthly_limit_at_least user) as Hdefault.
  assert (Hal : User.approval_limit saved
                = if User.falsy (User.approval_limit user)
                  then Some (User.get_default_approval_limit user)
                  else User.approval_limit user)
    by (rewrite Hsaved; reflexivity).
  assert (Hml : User.monthly_expense_limit saved
                = if User.falsy (User.monthly_expense_limit user)
                  then Some (User.get_default_monthly_limit user)
                  else User.monthly_expense_limit user)
    by (rewrite Hsaved; reflexivity).
  assert (Hrole : User.role saved = User.role user) by (rewrite Hsaved; reflexivity).
  split.
  { rewrite (save_fields saved).
    unfold User.get_default_approval_limit, User.get_default_monthly_limit.
    rewrite Hrole.
    fold (User.get_default_approval_limit user).
    fold (User.get_default_monthly_limit user).
    rewrite Hal, Hml.
    replace (if User.falsy (if User.falsy (User.approval_limit user)
                            then Some (User.get_default_approval_limit user)
                            else User.approval_limit user)
             then Some (User.get_default_approval_limit user)
             else if User.falsy (User.approval_limit user)
                  then Some (User.get_default_approval_limit user)
                  else User.approval_limit user)
      with (if User.falsy (User.approval_limit user)
            then Some (User.get_default_approval_limit user)
            else User.approval_limit user)
      by (destruct (User.falsy (User.approval_limit user)) eqn:E;
          [ destruct (User.falsy (Some (User.get_default_approval_limit user)));
            reflexivity
          | rewrite E; reflexivity ]).
    replace (if User.falsy (if User.falsy (User.monthly_expense_limit user)
                            then Some (User.get_default_monthly_limit user)
                            else User.monthly_expense_limit user)
             then Some (User.get_default_monthly_limit user)
             else if User.falsy (User.monthly_expense_limit user)
                  then Some (User.get_default_monthly_limit user)
                  else User.monthly_expense_limit user)
      with (if User.falsy (User.monthly_expense_limit user)
            then Some (User.get_default_monthly_limit user)
            else User.monthly_expense_limit user)
      by (destruct (User.falsy (User.monthly_expense_limit user)) eqn:E;
          [ destruct (User.falsy (Some (User.get_default_monthly_limit user)));
            reflexivity
          | rewrite E; reflexivity ]).
    rewrite Hsaved. reflexivity. }
  split.
  { rewrite Hal. destruct (User.falsy (User.approval_limit user)) eqn:E;
      [ discriminate | ].
    destruct (User.approval_limit user); [ discriminate | discriminate E ]. }
  split.
  { rewrite Hml. destruct (User.falsy (User.monthly_expense_limit user)) eqn:E;
      [ | exact E ].
    cbn [User.falsy]. apply Z.eqb_neq. lia. }
  repeat match goal with
         | |- _ /\ _ => split
         end;
    try (rewrite Hsaved; reflexivity).
  - intros E. rewrite Hal, E. reflexivity.
  - intros E. rewrite Hml, E. reflexivity.
  - intros E. unfold User.get_approval_limit. rewrite Hal, E.
    destruct (User.get_default_approval_limit user =? 0) eqn:E0;
      [ apply Z.eqb_eq in E0; congruence | reflexivity ].
  - intros E. unfold User.get_monthly_expense_limit. rewrite Hml, E.
    replace (User.get_default_monthly_limit user =? 0) with false
      by (symmetry; apply Z.eqb_neq; lia).
    split; [ reflexivity | exact Hdefault ].
  - intros Hemp E amount Hpos.
    unfold User.can_approve_amount, User.get_approval_limit.
    rewrite Hal, E. unfold User.get_default_approval_limit. rewrite Hemp.
    cbn. rewrite Z.geb_leb. apply Z.leb_gt. exact Hpos.
Qed.

(** ** The serializers *)

Lemma clean_passes w self :
  0 < amount self ->
  (10 <= String.length (description self))%nat ->
  date_of (now w) - EXPENSE_RULES.MAX_EXPENSE_AGE_DAYS <= expense_date self ->
  clean w self = (self, inr tt).
Proof.
  intros Hpos Hlen Hage. unfold clean. unfold_monad. cbv zeta.
  replace (amount self <=? 0) with false
    by (symmetry; apply Z.leb_gt; exact Hpos).
  cbv beta iota.
  replace (String.eqb (description self) "") with false
    by (symmetry; apply String.eqb_neq; intros E; rewrite E in Hlen;
        simpl in Hlen; lia).
  replace (String.length (description self) <? 10)%nat with false
    by (symmetry; apply Nat.ltb_ge; exact Hlen).
  cbn [orb]. cbv beta iota.
  replace (expense_date self
           <? date_of (now w) - EXPENSE_RULES.MAX_EXPENSE_AGE_DAYS) with false
    by (symmetry; apply Z.ltb_ge; exact Hage).
  reflexivity.
Qed.

(** X19. What the create serializer accepts, the model accepts: an amount
    passes [validate_amount] unchanged and is positive, a description comes
    out of [validate_description] stripped and at least 10 characters long,
    a date passes [validate_expense_date] unchanged and lies within the last
    90 days and not after today; and [clean] passes on every expense that
    carries three accepted values. *)
Theorem X19_values_accepted_at_creation_pass_clean :
  forall (w : World) (amount0 amount1 : Z) (description0 description1 : string)
         (date0 date1 : Z),
    ExpenseCreateSerializer.validate_amount amount0 = inr amount1 ->
    ExpenseCreateSerializer.validate_description description0 = inr description1 ->
    ExpenseCreateSerializer.validate_expense_date w date0 = inr date1 ->
    amount1 = amount0 /\ 0 < amount0
    /\ description1 = ExpenseActionSerializer.strip description0
    /\ (10 <= String.length description1)%nat
    /\ date1 = date0
    /\ date_of (now w) - 90 <= date0 <= date_of (now w)
    /\ forall self : Expense.t,
         amount self = amount1 -> description self = description1 ->
         expense_date self = date1 ->
         clean w self = (self, inr tt).
Proof.
  intros w a0 a1 d0 d1 t0 t1.
  unfold ExpenseCreateSerializer.validate_amount,
    ExpenseCreateSerializer.validate_description,
    ExpenseCreateSerializer.validate_expense_date. cbv zeta.
  destruct (a0 <=? 0) eqn:Ea; [ discriminate | ].
  destruct (String.eqb d0 ""
            || (String.length (ExpenseActionSerializer.strip d0) <? 10)%nat)
    eqn:Ed; [ discriminate | ].
  destruct (t0 <? date_of (now w) - EXPENSE_RULES.MAX_EXPENSE_AGE_DAYS) eqn:Eold;
    [ discriminate | ].
  destruct (t0 >? date_of (now w)) eqn:Enew; [ discriminate | ].
  intros Ha Hd Ht. inversion Ha. inversion Hd. inversion Ht. subst.
  apply Z.leb_gt in Ea. apply Z.ltb_ge in Eold.
  rewrite Z.gtb_ltb in Enew. apply Z.ltb_ge in Enew.
  apply orb_false_iff in Ed. destruct Ed as [_ Ed]. apply Nat.ltb_ge in Ed.
  unfold EXPENSE_RULES.MAX_EXPENSE_AGE_DAYS in Eold.
  repeat match goal with
         | |- _ /\ _ => split
         end; try reflexivity; try assumption.
  intros self Hsa Hsd Hst. apply clean_passes.
  - rewrite Hsa. exact Ea.
  - rewrite Hsd. exact Ed.
  - rewrite Hst. exact Eold.
Qed.

Lemma X19_witness :
  clean (Seed.world []) (Seed.draft 10 500 MEALS)
  = (Seed.draft 10 500 MEALS, inr tt).
Proof.
  refine (proj2 (proj2 (proj2 (proj2 (proj2 (proj2
    (X19_values_accepted_at_creation_pass_clean (Seed.world [])
       500 500 "Client visit and related costs" "Client visit and related costs"
       19791 19791 _ _ _)))))) (Seed.draft 10 500 MEALS) _ _ _);
    vm_compute; reflexivity.
Defined.

(** X20. For [reject], [flag_suspicious] and [executive_override], a body
    that carries a [reason] is valid only with a reason that is not empty
    once stripped: the validated reason is the stripped text, is not empty,
    has at most 500 characters and no null character.  (A whitespace-only
    reason is therefore refused.) *)
Theorem X20_given_reason_is_accepted_only_if_not_blank :
  forall (action data : string) (validated : option string),
    In action ["reject"; "flag_suspicious"; "executive_override"] ->
    ExpenseActionSerializer.is_valid action (Some data) = inr validated ->
    exists reason,
      validated = Some reason
      /\ reason = ExpenseActionSerializer.strip data
      /\ reason <> ""
      /\ (String.length reason <= 500)%nat
      /\ ExpenseActionSerializer.has_null_character reason = false.
Proof.
  intros action data validated Haction.
  assert (Hlisted : existsb (String.eqb action)
                      ["reject"; "flag_suspicious"; "executive_override"] = true).
  { apply existsb_exists. exists action. split; [ exact Haction | ].
    apply String.eqb_refl. }
  unfold ExpenseActionSerializer.is_valid, ExpenseActionSerializer.run_validation,
    ExpenseActionSerializer.validate_reason.
  rewrite Hlisted. cbv zeta.
  destruct (String.eqb data ""
            || String.eqb (ExpenseActionSerializer.strip data) "") eqn:Eblank.
  - cbn. discriminate.
  - apply orb_false_iff in Eblank. destruct Eblank as [_ Estrip].
    destruct (500 <? String.length (ExpenseActionSerializer.strip data))%nat
      eqn:Elen; [ discriminate | ].
    destruct (ExpenseActionSerializer.has_null_character
                (ExpenseActionSerializer.strip data)) eqn:Enull;
      [ discriminate | ].
    cbn [app andb]. rewrite Estrip. intros H. inversion H.
    exists (ExpenseActionSerializer.strip data).
    repeat match goal with
           | |- _ /\ _ => split
           end; try reflexivity; try assumption.
    + apply String.eqb_neq. exact Estrip.
    + apply Nat.ltb_ge. exact Elen.
Qed.

Lemma X20_witness :
  exists reason,
    ExpenseActionSerializer.is_valid "reject" (Some "  not a business expense ")
    = inr (Some reason) /\ reason <> "".
Proof.
  destruct (X20_given_reason_is_accepted_only_if_not_blank
              "reject" "  not a business expense "
              (Some "not a business expense"))
    as (reason & Hvalid & _ & Hne & _).
  - left. reflexivity.
  - vm_compute. reflexivity.
  - exists reason. split; [ | exact Hne ].
    rewrite <- Hvalid. vm_compute. reflexivity.
Defined.

(** ** Pending approvals and receipts *)

(** X21. Every expense listed by [pending_approval] is one the user sees
    in the expense views, in the state the user's role acts on: submitted
    and assigned to them for a manager; submitted and either above 10000.00
    or entertainment above 200.00 for a vp or cfo; approved for a finance
    user, who, if an active approver, can pay it; on compliance hold for a
    compliance user.  An employee has no pending approvals. *)
Theorem X21_pending_approvals_are_visible_and_actionable :
  forall (w : World) (user : User.t) (row : Expense.t),
    In row (ExpenseViewSet.pending_approval w user) ->
    In row (ExpenseViewSet.get_queryset w user)
    /\ match User.role user with
       | MANAGER =>
           state row = SUBMITTED /\ manager row = Some (User.id user)
       | VP | CFO =>
           state row = SUBMITTED
           /\ (amount row > 1000000
               \/ expense_category row = ENTERTAINMENT /\ amount row > 20000)
       | FINANCE =>
           state row = APPROVED
           /\ (User.is_active_approver user = true ->
               exists row', process_payment w user row = (row', inr tt)
                            /\ state row' = PAID)
       | COMPLIANCE => state row = COMPLIANCE_HOLD
       | EMPLOYEE => False
       end.
Proof.
  intros w user row.
  assert (Hstate : forall s, ExpenseState_eqb (state row) s = true -> state row = s)
    by (intros s; destruct (state row), s; try discriminate; reflexivity).
  assert (Hgt : forall a b, (a >? b) = true -> a > b)
    by (intros a b H; rewrite Z.gtb_ltb in H; apply Z.ltb_lt in H; lia).
  rewrite get_queryset_filter.
  unfold ExpenseViewSet.pending_approval,
    ExpenseObjectPermission.has_object_permission, is_user.
  destruct (User.role user) eqn:Hrole; rewrite ?filter_In.
  - intros [].
  - intros [Hin Hsel]. apply andb_true_iff in Hsel. destruct Hsel as [Hm Hs].
    split.
    + split; [ exact Hin | ]. rewrite Hm. apply orb_true_r.
    + split; [ apply Hstate; exact Hs | ].
      destruct (manager row) as [m | ]; [ | discriminate ].
      apply Z.eqb_eq in Hm. subst m. reflexivity.
  - intros [Hin Hs]. split.
    + split; [ exact Hin | ].
      cbn [existsb]. rewrite Hs. cbn [orb]. apply orb_true_r.
    + split; [ apply Hstate; exact Hs | ].
      intros Hactive.
      destruct (call_cases w {| req_transition := t_process_payment;
                                req_user := user; req_reason := "" |} row)
        as [[Hcall _] | [_ Hnot]]; unfold call, permitted in *;
        cbn [req_transition req_user] in *.
      * eexists. split; [ exact Hcall | reflexivity ].
      * unfold User.can_process_payments in Hnot.
        rewrite Hs, Hrole, Hactive in Hnot. discriminate.
  - intros [Hin Hs]. split.
    + split; [ exact Hin | reflexivity ].
    + apply Hstate. exact Hs.
  - intros [Hsel Hpred]. destruct Hsel as [Hin Hs].
    split.
    + split; [ exact Hin | reflexivity ].
    + split; [ apply Hstate; exact Hs | ].
      apply orb_true_iff in Hpred. destruct Hpred as [Hbig | Hent].
      * left. apply Hgt. exact Hbig.
      * right. apply andb_true_iff in Hent. destruct Hent as [Hcat Ha].
        split; [ | apply Hgt; exact Ha ].
        destruct (expense_category row); try discriminate; reflexivity.
  - intros [Hsel Hpred]. destruct Hsel as [Hin Hs].
    split.
    + split; [ exact Hin | reflexivity ].
    + split; [ apply Hstate; exact Hs | ].
      apply orb_true_iff in Hpred. destruct Hpred as [Hbig | Hent].
      * left. apply Hgt. exact Hbig.
      * right. apply andb_true_iff in Hent. destruct Hent as [Hcat Ha].
        split; [ | apply Hgt; exact Ha ].
        destruct (expense_category row); try discriminate; reflexivity.
Qed.

Lemma X21_witness :
  In (Seed.submitted 10 500 MEALS)
     (ExpenseViewSet.get_queryset (Seed.world [Seed.submitted 10 500 MEALS])
        Seed.jane_manager).
Proof.
  refine (proj1 (X21_pending_approvals_are_visible_and_actionable
                   (Seed.world [Seed.submitted 10 500 MEALS]) Seed.jane_manager
                   (Seed.submitted 10 500 MEALS) _)).
  vm_compute. left. reflexivity.
Defined.

(** X22. [perform_create] adds a receipt only to a draft that the
    requester owns: when it returns normally, the expense named in the
    request is stored, belongs to the requester and is a draft, exactly one
    receipt, linked to that expense, has been added, expenses and users are
    untouched, and the expense now has a receipt for the receipt rule of
    [submit]; when the named expense is stored but is not the requester's or
    not a draft, it raises and nothing is added. *)
Theorem X22_receipts_are_added_to_own_drafts_only :
  forall (w : World) (user : User.t) (expense_id : option Z)
         (file_name : string) (file_size : Z) (mime_type : string),
    match ReceiptViewSet.perform_create w user expense_id file_name file_size
            mime_type with
    | inr w' =>
        exists expense,
          expense_id = Some (id expense)
          /\ In expense (expenses w)
          /\ User.id (employee expense) = User.id user
          /\ state expense = DRAFT
          /\ receipts w'
             = {| Receipt.id := uuid4 w; Receipt.expense := id expense;
                  Receipt.file_name := file_name;
                  Receipt.file_size := file_size;
                  Receipt.mime_type := mime_type |} :: receipts w
          /\ expenses w' = expenses w /\ users w' = users w
          /\ receipts_exists w' expense = true
    | inl error =>
        match expense_id with
        | None => error = ReceiptViewSet.Http404
        | Some pk =>
            match find (fun row => id row =? pk) (expenses w) with
            | None => error = ReceiptViewSet.Http404
            | Some expense =>
                User.id (employee expense) <> User.id user
                \/ state expense <> DRAFT
            end
        end
    end.
Proof.
  intros w user expense_id file_name file_size mime_type.
  unfold ReceiptViewSet.perform_create.
  destruct expense_id as [pk | ]; [ | reflexivity ].
  destruct (find (fun row => id row =? pk) (expenses w)) as [expense | ] eqn:Efind;
    [ | reflexivity ].
  apply find_some in Efind. destruct Efind as [Hin Hid]. apply Z.eqb_eq in Hid.
  destruct (User.id (employee expense) =? User.id user) eqn:Eowner; cbn [negb].
  - destruct (ExpenseState_eqb (state expense) DRAFT) eqn:Estate; cbn [negb].
    + exists expense. apply Z.eqb_eq in Eowner.
      repeat match goal with
             | |- _ /\ _ => split
             end; try reflexivity; try assumption.
      * congruence.
      * destruct (state expense); try discriminate; reflexivity.
      * unfold receipts_exists. cbn. rewrite Z.eqb_refl. reflexivity.
    + right. intros Hs. rewrite Hs in Estate. discriminate.
  - left. apply Z.eqb_neq. exact Eowner.
Qed.

Lemma monthly_total_counts_stored_row_witness :
  500 <= get_monthly_submitted_amount
           (Seed.world [Seed.submitted 9 199500 TRAVEL; Seed.draft 10 500 MEALS])
           Seed.john_employee.
Proof.
  apply (monthly_total_counts_stored_row
           (Seed.world [Seed.submitted 9 199500 TRAVEL; Seed.draft 10 500 MEALS])
           Seed.john_employee (Seed.draft 10 500 MEALS)).
  - right. left. reflexivity.
  - reflexivity.
  - vm_compute. discriminate.
  - intros row [<- | [<- | []]]; vm_compute; discriminate.
Defined.
